(** * The thruster system of ign-gazebo: src/systems/thruster/Thruster.cc

    A shallow embedding of [ThrusterPrivateData] and of the four functions of
    the file ([Configure], [OnCmdThrust], [ThrustToAngularVec], [PreUpdate]),
    followed by the properties of the design document that they decide.

    Numbers.  A C++ [double] is modelled by [double] below: the three kinds
    of IEEE value (NaN, the two infinities, the finite numbers) with the IEEE
    rules for the special values, and exact real arithmetic on the finite
    ones.  Rounding, overflow, underflow and the sign of zero are therefore
    not part of that model; where a property of [ThrustToAngularVec] rests
    on them, it is stated on [ThrustToAngularVec64], the same function on
    IEEE binary64 numbers.

    Concurrency.  The mutex [mtx] makes the write of [thrust] in
    [OnCmdThrust] and its read in [PreUpdate] atomic; the model runs the
    handlers one at a time and has no lock. *)

From Stdlib Require Import Floats Reals Lra ZArith.
From stdpp Require Import base option list gmap strings.

Set Default Proof Using "Type".

(* ===================================================================== *)
(** ** Doubles *)
(* ===================================================================== *)

Inductive double : Type :=
  | NaN : double
  | Inf (neg : bool) : double
  | Fin (r : R) : double.

Declare Scope double_scope.
Delimit Scope double_scope with D.
Bind Scope double_scope with double.

Definition Rltb (x y : R) : bool := if Rlt_dec x y then true else false.
Definition Reqb (x y : R) : bool := if Req_dec_T x y then true else false.

(** [a < b]; every comparison with a NaN is false. *)
Definition dlt (a b : double) : bool :=
  match a, b with
  | NaN, _ | _, NaN => false
  | Inf na, Inf nb => na && negb nb
  | Inf na, Fin _ => na
  | Fin _, Inf nb => negb nb
  | Fin x, Fin y => Rltb x y
  end.

(** [a <= b]. *)
Definition dle (a b : double) : bool :=
  match a, b with
  | NaN, _ | _, NaN => false
  | Inf na, Inf nb => na || negb nb
  | Inf na, Fin _ => na
  | Fin _, Inf nb => negb nb
  | Fin x, Fin y => negb (Rltb y x)
  end.

(** [a == b]. *)
Definition deq (a b : double) : bool :=
  match a, b with
  | NaN, _ | _, NaN => false
  | Inf na, Inf nb => eqb na nb
  | Inf _, Fin _ | Fin _, Inf _ => false
  | Fin x, Fin y => Reqb x y
  end.

Definition dgt (a b : double) : bool := dlt b a.
Definition dge (a b : double) : bool := dle b a.

Definition dneg (a : double) : double :=
  match a with
  | NaN => NaN
  | Inf n => Inf (negb n)
  | Fin x => Fin (- x)
  end.

(** [abs] on a double (the overload of <cmath>). *)
Definition dabs (a : double) : double :=
  match a with
  | NaN => NaN
  | Inf _ => Inf false
  | Fin x => Fin (Rabs x)
  end.

Definition dadd (a b : double) : double :=
  match a, b with
  | NaN, _ | _, NaN => NaN
  | Inf na, Inf nb => if eqb na nb then Inf na else NaN
  | Inf na, Fin _ => Inf na
  | Fin _, Inf nb => Inf nb
  | Fin x, Fin y => Fin (x + y)
  end.

Definition dsub (a b : double) : double := dadd a (dneg b).

Definition dmul (a b : double) : double :=
  match a, b with
  | NaN, _ | _, NaN => NaN
  | Inf na, Inf nb => Inf (xorb na nb)
  | Inf n, Fin y | Fin y, Inf n =>
      if Reqb y 0 then NaN else Inf (xorb n (Rltb y 0))
  | Fin x, Fin y => Fin (x * y)
  end.

Definition ddiv (a b : double) : double :=
  match a, b with
  | NaN, _ | _, NaN => NaN
  | Inf _, Inf _ => NaN
  | Inf na, Fin y => Inf (xorb na (Rltb y 0))
  | Fin _, Inf _ => Fin 0
  | Fin x, Fin y =>
      if Reqb y 0
      then (if Reqb x 0 then NaN else Inf (Rltb x 0))
      else Fin (x / y)
  end.

Definition dsqrt (a : double) : double :=
  match a with
  | NaN => NaN
  | Inf n => if n then NaN else Inf false
  | Fin x => if Rltb x 0 then NaN else Fin (sqrt x)
  end.

(** [pow(x, n)] for a natural exponent. *)
Fixpoint pow (x : double) (n : nat) : double :=
  match n with
  | O => Fin 1
  | S n' => dmul x (pow x n')
  end.

Notation "a + b" := (dadd a b) : double_scope.
Notation "a - b" := (dsub a b) : double_scope.
Notation "a * b" := (dmul a b) : double_scope.
Notation "a / b" := (ddiv a b) : double_scope.
Notation "- a" := (dneg a) : double_scope.
Notation "a <? b" := (dlt a b) : double_scope.
Notation "a >? b" := (dgt a b) : double_scope.
Notation "a <=? b" := (dle a b) : double_scope.
Notation "a >=? b" := (dge a b) : double_scope.

Definition isnan (a : double) : bool :=
  match a with NaN => true | _ => false end.

Definition isinf (a : double) : bool :=
  match a with Inf _ => true | _ => false end.

(** Modelled from the spec: [ignition::math::fixnan] belongs to
    ignition-math, not to this repository.  Section 7: a non-finite command
    value is recovered "by substituting zero before clamping". *)
Definition fixnan (v : double) : double :=
  if isnan v || isinf v then Fin 0 else v.

(** [std::min] and [std::max], each with the single comparison [<] of the
    standard library. *)
Definition std_min (a b : double) : double := if (b <? a)%D then b else a.
Definition std_max (a b : double) : double := if (a <? b)%D then b else a.

(** Modelled from the spec: [ignition::math::clamp] belongs to
    ignition-math, not to this repository.  Section 4.1: "clamps the result
    to [commandMin, commandMax]"; the library does it with [std::max] of
    [std::min]. *)
Definition clamp (v lo hi : double) : double := std_max (std_min v hi) lo.

(* ===================================================================== *)
(** ** Vectors, poses and the PID controller of ignition-math *)
(* ===================================================================== *)

Record Vector3d : Type := mkVector3d { X : double; Y : double; Z : double }.

Record Quaterniond : Type :=
  mkQuaterniond { qw : double; qx : double; qy : double; qz : double }.

Record Pose3d : Type := mkPose3d { Pos : Vector3d; Rot : Quaterniond }.

(** The values of the default constructors. *)
Definition Vector3d_Zero : Vector3d := mkVector3d (Fin 0) (Fin 0) (Fin 0).
Definition Quaterniond_Identity : Quaterniond :=
  mkQuaterniond (Fin 1) (Fin 0) (Fin 0) (Fin 0).
Definition Pose3d_Zero : Pose3d := mkPose3d Vector3d_Zero Quaterniond_Identity.

(** [v * s], [u + v] and [u.Dot(v)]. *)
Definition vscale (v : Vector3d) (s : double) : Vector3d :=
  mkVector3d (X v * s)%D (Y v * s)%D (Z v * s)%D.

Definition vadd (u v : Vector3d) : Vector3d :=
  mkVector3d (X u + X v)%D (Y u + Y v)%D (Z u + Z v)%D.

Definition Dot (u v : Vector3d) : double :=
  (X u * X v + Y u * Y v + Z u * Z v)%D.

Module PID.

(** The members of [ignition::math::PID]: the eight values given to
    [Init] and the accumulators that [Update] carries from call to call. *)
Record t : Type := mk {
  pGain : double;
  iGain : double;
  dGain : double;
  iMax : double;
  iMin : double;
  cmdMax : double;
  cmdMin : double;
  cmdOffset : double;
  pErrLast : double;
  pErr : double;
  iErr : double;
  dErr : double;
  cmd : double
}.

(** [Init] stores its arguments, in the order of the call of line 221,
    and resets the accumulators. *)
Definition Init (_p _i _d _imax _imin _cmdMax _cmdMin _cmdOffset : double) : t :=
  mk _p _i _d _imax _imin _cmdMax _cmdMin _cmdOffset
     (Fin 0) (Fin 0) (Fin 0) (Fin 0) (Fin 0).

(** A default-constructed controller, as [rpmController] is before
    [Configure] reaches [Init]. *)
Definition Default : t :=
  Init (Fin 0) (Fin 0) (Fin 0) (Fin (-1)) (Fin 0) (Fin (-1)) (Fin 0) (Fin 0).

End PID.

(** Simulation time steps ([UpdateInfo::dt]) are counted in nanoseconds. *)
Definition duration : Type := BinNums.Z.

(** The operations of ignition-math and ignition-transport that
    Thruster.cc calls and that no property below looks into.  Their code is
    outside this repository; the development is parametric in them. *)
Class Externals : Type := {
  (** [Vector3d::Normalize]: the vector scaled to unit length (left alone
      when its length is zero); the C++ method also overwrites the vector
      it is called on with the result. *)
  Normalize : Vector3d → Vector3d;
  (** [Quaterniond::RotateVector]. *)
  RotateVector : Quaterniond → Vector3d → Vector3d;
  (** [PID::Update(error, dt)]: the controller after the call and the
      command it returns. *)
  PID_Update : PID.t → double → duration → PID.t * double;
  (** [transport::TopicUtils::AsValidTopic]. *)
  AsValidTopic : string → string
}.

(* ===================================================================== *)
(** ** The SDF element and the entity-component manager *)
(* ===================================================================== *)

(** The children of the plugin's [<plugin>] element, by tag. *)
Inductive SdfValue : Type :=
  | SdfString (s : string)
  | SdfDouble (d : double).

Definition HasElement (_sdf : gmap string SdfValue) (key : string) : bool :=
  match _sdf !! key with Some _ => true | None => false end.

(** [Get<double>(key)]; the default-constructed value when the element is
    absent or does not hold a number. *)
Definition Get_double (_sdf : gmap string SdfValue) (key : string) : double :=
  match _sdf !! key with Some (SdfDouble d) => d | _ => Fin 0 end.

(** [Get<std::string>(key)]. *)
Definition Get_string (_sdf : gmap string SdfValue) (key : string) : string :=
  match _sdf !! key with Some (SdfString s) => s | _ => "" end.

Definition Entity : Type := N.
Definition kNullEntity : Entity := 0%N.

(** A force and torque commanded on a link for the current step
    ([components::ExternalWorldWrenchCmd]). *)
Record Wrench : Type := mkWrench { force : Vector3d; torque : Vector3d }.

(** Modelled from the spec: the entity-component manager is defined
    outside Thruster.cc.  Section 9 names the two interfaces the thruster
    needs, "a pose/velocity query for a body handle" and "a
    wrench-application sink for a body handle"; the record holds the
    components that Thruster.cc reads or writes, one finite map per
    component type, and the joints and links of each model by name. *)
Record EntityComponentManager : Type := mkECM {
  Name : gmap Entity string;
  JointsOfModel : gmap (Entity * string) Entity;
  LinksOfModel : gmap (Entity * string) Entity;
  JointAxis : gmap Entity Vector3d;
  ChildLinkName : gmap Entity string;
  WorldPose : gmap Entity Pose3d;
  AngularVelocity : gmap Entity Vector3d;
  WorldAngularVelocity : gmap Entity Vector3d;
  ExternalWorldWrenchCmd : gmap Entity Wrench
}.

(** Modelled from the spec: [Model::Name] is defined outside Thruster.cc;
    section 6: the namespace "defaults to owning body's name". *)
Definition Model_Name (_ecm : EntityComponentManager) (model : Entity) : string :=
  default "" (Name _ecm !! model).

(** Modelled from the spec: [Model::JointByName] and [Model::LinkByName]
    are defined outside Thruster.cc; section 7 has the case "joint not
    found in model", which the caller recognises by [kNullEntity]. *)
Definition JointByName (_ecm : EntityComponentManager) (model : Entity)
    (name : string) : Entity :=
  default kNullEntity (JointsOfModel _ecm !! (model, name)).

Definition LinkByName (_ecm : EntityComponentManager) (model : Entity)
    (name : string) : Entity :=
  default kNullEntity (LinksOfModel _ecm !! (model, name)).

(** Modelled from the spec: [worldPose] is defined outside Thruster.cc;
    section 4.3, step 2: "Read current body world orientation". *)
Definition worldPose (e : Entity) (_ecm : EntityComponentManager) : Pose3d :=
  default Pose3d_Zero (WorldPose _ecm !! e).

(** Modelled from the spec: [Link::WorldAngularVelocity] is defined
    outside Thruster.cc; section 4.3, step 5: "Read the driven body's
    current world angular velocity".  The caller applies [->] to the
    result: it is an optional, empty when the link has no such component. *)
Definition Link_WorldAngularVelocity (_ecm : EntityComponentManager)
    (link : Entity) : option Vector3d :=
  WorldAngularVelocity _ecm !! link.

(** Modelled from the spec: [enableComponent<T>] is defined outside
    Thruster.cc ("Create necessary components if not present", line 194):
    it creates the component, with its default value, when the entity does
    not have it. *)
Definition enableComponent (comp : gmap Entity Vector3d) (e : Entity) :
    gmap Entity Vector3d :=
  match comp !! e with
  | Some _ => comp
  | None => <[e := Vector3d_Zero]> comp
  end.

Definition set_velocities (_ecm : EntityComponentManager)
    (av wav : gmap Entity Vector3d) : EntityComponentManager :=
  mkECM (Name _ecm) (JointsOfModel _ecm) (LinksOfModel _ecm) (JointAxis _ecm)
        (ChildLinkName _ecm) (WorldPose _ecm) av wav
        (ExternalWorldWrenchCmd _ecm).

Definition set_ExternalWorldWrenchCmd (_ecm : EntityComponentManager)
    (w : gmap Entity Wrench) : EntityComponentManager :=
  mkECM (Name _ecm) (JointsOfModel _ecm) (LinksOfModel _ecm) (JointAxis _ecm)
        (ChildLinkName _ecm) (WorldPose _ecm) (AngularVelocity _ecm)
        (WorldAngularVelocity _ecm) w.

(** Modelled from the spec: [Link::AddWorldWrench] is defined outside
    Thruster.cc.  Section 4.3, step 8: the wrench "is additive (accumulated
    with other wrenches applied the same step, not overwritten)". *)
Definition AddWorldWrench (_ecm : EntityComponentManager) (link : Entity)
    (_force _torque : Vector3d) : EntityComponentManager :=
  let w :=
    match ExternalWorldWrenchCmd _ecm !! link with
    | None => mkWrench _force _torque
    | Some w0 => mkWrench (vadd (force w0) _force) (vadd (torque w0) _torque)
    end in
  set_ExternalWorldWrenchCmd _ecm (<[link := w]> (ExternalWorldWrenchCmd _ecm)).

(* ===================================================================== *)
(** ** Thruster.cc *)
(* ===================================================================== *)

(** [ThrusterPrivateData] (lines 45-90).  [node] is the list of topics the
    transport node is subscribed to, every one with the callback
    [OnCmdThrust]. *)
Record ThrusterPrivateData : Type := mkThrusterPrivateData {
  thrust : double;
  linkEntity : Entity;
  jointAxis : Vector3d;
  node : list string;
  rpmController : PID.t;
  cmdMax : double;
  cmdMin : double;
  thrustCoefficient : double;
  fluidDensity : double;
  propellerDiameter : double
}.

(** [Thruster::Thruster]: [std::make_unique<ThrusterPrivateData>()]
    value-initialises the object, so the members without an initialiser
    start from zero and the others from the value written at their
    declaration. *)
Definition Thruster_new : ThrusterPrivateData := {|
  thrust := Fin 0;
  linkEntity := 0%N;
  jointAxis := Vector3d_Zero;
  node := [];
  rpmController := PID.Default;
  cmdMax := Fin 1000;
  cmdMin := Fin (-1000);
  thrustCoefficient := Fin 1;
  fluidDensity := Fin 1000;
  propellerDiameter := Fin 0.02
|}.

Definition set_thrust (v : double) (d : ThrusterPrivateData) :=
  mkThrusterPrivateData v (linkEntity d) (jointAxis d) (node d)
    (rpmController d) (cmdMax d) (cmdMin d) (thrustCoefficient d)
    (fluidDensity d) (propellerDiameter d).

Definition set_linkEntity (v : Entity) (d : ThrusterPrivateData) :=
  mkThrusterPrivateData (thrust d) v (jointAxis d) (node d)
    (rpmController d) (cmdMax d) (cmdMin d) (thrustCoefficient d)
    (fluidDensity d) (propellerDiameter d).

Definition set_jointAxis (v : Vector3d) (d : ThrusterPrivateData) :=
  mkThrusterPrivateData (thrust d) (linkEntity d) v (node d)
    (rpmController d) (cmdMax d) (cmdMin d) (thrustCoefficient d)
    (fluidDensity d) (propellerDiameter d).

(** [node.Subscribe(topic, &ThrusterPrivateData::OnCmdThrust, ...)]. *)
Definition Subscribe (topic : string) (d : ThrusterPrivateData) :=
  mkThrusterPrivateData (thrust d) (linkEntity d) (jointAxis d)
    (topic :: node d) (rpmController d) (cmdMax d) (cmdMin d)
    (thrustCoefficient d) (fluidDensity d) (propellerDiameter d).

Definition set_rpmController (v : PID.t) (d : ThrusterPrivateData) :=
  mkThrusterPrivateData (thrust d) (linkEntity d) (jointAxis d) (node d)
    v (cmdMax d) (cmdMin d) (thrustCoefficient d)
    (fluidDensity d) (propellerDiameter d).

Definition set_thrustCoefficient (v : double) (d : ThrusterPrivateData) :=
  mkThrusterPrivateData (thrust d) (linkEntity d) (jointAxis d) (node d)
    (rpmController d) (cmdMax d) (cmdMin d) v
    (fluidDensity d) (propellerDiameter d).

Definition set_fluidDensity (v : double) (d : ThrusterPrivateData) :=
  mkThrusterPrivateData (thrust d) (linkEntity d) (jointAxis d) (node d)
    (rpmController d) (cmdMax d) (cmdMin d) (thrustCoefficient d)
    v (propellerDiameter d).

Definition set_propellerDiameter (v : double) (d : ThrusterPrivateData) :=
  mkThrusterPrivateData (thrust d) (linkEntity d) (jointAxis d) (node d)
    (rpmController d) (cmdMax d) (cmdMin d) (thrustCoefficient d)
    (fluidDensity d) v.

(** [ThrusterPrivateData::ThrustToAngularVec] (lines 241-253). *)
Definition ThrustToAngularVec (d : ThrusterPrivateData) (_thrust : double) :
    double :=
  let propAngularVelocity :=
    dsqrt (dabs
      (_thrust /
        (fluidDensity d
         * thrustCoefficient d * pow (propellerDiameter d) 4))%D) in
  (propAngularVelocity * (if (_thrust >? Fin 0)%D then Fin 1 else Fin (-1)))%D.

(** [ThrusterPrivateData::OnCmdThrust] (lines 233-238). *)
Definition OnCmdThrust (d : ThrusterPrivateData) (_msg : double) :
    ThrusterPrivateData :=
  set_thrust (clamp (fixnan _msg) (cmdMin d) (cmdMax d)) d.

(** The step information the thruster reads ([UpdateInfo]). *)
Record UpdateInfo : Type := mkUpdateInfo { paused : bool; dt : duration }.

(** The place where [Configure] returns: one constructor for each of its
    four early returns, named after the message logged there, and
    [Listening] for the end of the function, after the message "Thruster
    listening to commands". *)
Inductive ConfigureLog : Type :=
  | MissingJointName
  | MissingThrustCoefficient
  | MissingPropellerDiameter
  | JointNotFound
  | Listening.

(** The two phases of section 4.3 of the design document: the component is
    Active when [Configure] ran to its end and Unconfigured after any of the
    early returns. *)
Inductive Phase : Type := Unconfigured | Active.

Definition phase (log : ConfigureLog) : Phase :=
  match log with Listening => Active | _ => Unconfigured end.

Section Thruster.

Context `{Externals}.

(** [Thruster::Configure] (lines 104-230).  The result is [None] when the
    function dereferences a null component pointer (a joint without
    [JointAxis] or [ChildLinkName]). *)
Definition Configure (_entity : Entity) (_sdf : gmap string SdfValue)
    (_ecm : EntityComponentManager) (d : ThrusterPrivateData) :
    option (ThrusterPrivateData * EntityComponentManager * ConfigureLog) :=
  let modelName := Model_Name _ecm _entity in
  let ns :=
    if HasElement _sdf "namespace" then Get_string _sdf "namespace"
    else modelName in
  if negb (HasElement _sdf "joint_name")
  then Some (d, _ecm, MissingJointName) else
  let jointName := Get_string _sdf "joint_name" in
  if negb (HasElement _sdf "thrust_coefficient")
  then Some (d, _ecm, MissingThrustCoefficient) else
  let d := set_thrustCoefficient (Get_double _sdf "thrust_coefficient") d in
  if negb (HasElement _sdf "propeller_diameter")
  then Some (d, _ecm, MissingPropellerDiameter) else
  let d := set_propellerDiameter (Get_double _sdf "propeller_diameter") d in
  let d :=
    if HasElement _sdf "fluid_density"
    then set_fluidDensity (Get_double _sdf "fluid_density") d
    else d in
  let jointEntity := JointByName _ecm _entity jointName in
  if (kNullEntity =? jointEntity)%N
  then Some (d, _ecm, JointNotFound) else
  axis ← JointAxis _ecm !! jointEntity;
  let d := set_jointAxis axis d in
  let thrusterTopicOld :=
    AsValidTopic ("/model/" +:+ ns +:+ "/joint/" +:+ jointName +:+ "/cmd_pos") in
  let d := Subscribe thrusterTopicOld d in
  let thrusterTopic :=
    AsValidTopic
      ("/model/" +:+ ns +:+ "/joint/" +:+ jointName +:+ "/cmd_thrust") in
  let d := Subscribe thrusterTopic d in
  childLink ← ChildLinkName _ecm !! jointEntity;
  let d := set_linkEntity (LinkByName _ecm _entity childLink) d in
  let _ecm :=
    set_velocities _ecm
      (enableComponent (AngularVelocity _ecm) (linkEntity d))
      (enableComponent (WorldAngularVelocity _ecm) (linkEntity d)) in
  let p := Fin 0.1 in
  let i := Fin 0 in
  let d' := Fin 0 in
  let iMax := Fin 1 in
  let iMin := Fin (-1) in
  let cmdMax' := ThrustToAngularVec d (cmdMax d) in
  let cmdMin' := ThrustToAngularVec d (cmdMin d) in
  let cmdOffset := Fin 0 in
  let p := if HasElement _sdf "p_gain" then Get_double _sdf "p_gain" else p in
  let i :=
    if negb (HasElement _sdf "i_gain") then Get_double _sdf "i_gain" else i in
  let d' :=
    if negb (HasElement _sdf "d_gain") then Get_double _sdf "d_gain" else d' in
  Some (set_rpmController
          (PID.Init p i d' iMax iMin cmdMax' cmdMin' cmdOffset) d,
        _ecm, Listening).

(** [Thruster::PreUpdate] (lines 256-290).  The result is [None] when the
    function dereferences the empty optional that
    [Link::WorldAngularVelocity] returns for a link without that
    component. *)
Definition PreUpdate (_info : UpdateInfo) (_ecm : EntityComponentManager)
    (d : ThrusterPrivateData) :
    option (ThrusterPrivateData * EntityComponentManager) :=
  if paused _info then Some (d, _ecm) else
  let link := linkEntity d in
  let pose := worldPose (linkEntity d) _ecm in
  let d := set_jointAxis (Normalize (jointAxis d)) d in
  let unitVector := RotateVector (Rot pose) (jointAxis d) in
  let desiredThrust := thrust d in
  let desiredPropellerAngVel := ThrustToAngularVec d desiredThrust in
  w ← Link_WorldAngularVelocity _ecm link;
  let currentAngular := Dot w unitVector in
  let angularError := (currentAngular - desiredPropellerAngVel)%D in
  let '(pid, torque) :=
    if (dabs angularError >? Fin 0.1)%D
    then PID_Update (rpmController d) angularError (dt _info)
    else (rpmController d, Fin 0) in
  let d := set_rpmController pid d in
  Some (d,
        AddWorldWrench _ecm link
          (vscale unitVector (thrust d))
          (vscale unitVector torque)).

(** The values that [PreUpdate] computes on its way: the propeller axis
    in the world frame, the error of the angular velocity about it, and
    the controller and torque that come out of the dead band. *)
Definition unitVector (_ecm : EntityComponentManager)
    (d : ThrusterPrivateData) : Vector3d :=
  RotateVector (Rot (worldPose (linkEntity d) _ecm))
    (Normalize (jointAxis d)).

Definition angularError (_ecm : EntityComponentManager)
    (d : ThrusterPrivateData) (w : Vector3d) : double :=
  (Dot w (unitVector _ecm d) - ThrustToAngularVec d (thrust d))%D.

Definition dead_band (_info : UpdateInfo) (d : ThrusterPrivateData)
    (error : double) : PID.t * double :=
  if (dabs error >? Fin 0.1)%D
  then PID_Update (rpmController d) error (dt _info)
  else (rpmController d, Fin 0).

End Thruster.

(* ===================================================================== *)
(** ** The host: message delivery and simulation steps *)
(* ===================================================================== *)

(** What the host does with a configured plugin: the transport delivers a
    message published on a topic, the simulation runner calls [PreUpdate],
    and the other systems (physics among them) rewrite the components. *)
Inductive Event : Type :=
  | Message (topic : string) (_msg : double)
  | Step (_info : UpdateInfo)
  | World (_ecm : EntityComponentManager).

Section Host.

Context `{Externals}.

(** A message reaches [OnCmdThrust] when the node is subscribed to its
    topic. *)
Definition handle (ev : Event)
    (s : ThrusterPrivateData * EntityComponentManager) :
    option (ThrusterPrivateData * EntityComponentManager) :=
  match ev with
  | Message topic _msg =>
      Some (if bool_decide (topic ∈ node s.1) then OnCmdThrust s.1 _msg
            else s.1, s.2)
  | Step _info => PreUpdate _info s.2 s.1
  | World _ecm => Some (s.1, _ecm)
  end.

Fixpoint run (evs : list Event)
    (s : ThrusterPrivateData * EntityComponentManager) :
    option (ThrusterPrivateData * EntityComponentManager) :=
  match evs with
  | [] => Some s
  | ev :: evs' => s' ← handle ev s; run evs' s'
  end.

End Host.

(* ===================================================================== *)
(** ** An instance of the external operations *)
(* ===================================================================== *)

(** The operations of [Externals] as ignition-math 6 defines them, to run
    the model on concrete scenarios.  No general statement below depends on
    this module. *)
Module Reference.

(** [equal(a, b)] with the default tolerance [1e-6]. *)
Definition equal (a b : double) : bool := (dabs (a - b) <=? Fin 1e-6)%D.

Definition Length (v : Vector3d) : double :=
  dsqrt (X v * X v + Y v * Y v + Z v * Z v)%D.

Definition Normalize (v : Vector3d) : Vector3d :=
  let d := Length v in
  if negb (equal d (Fin 0))
  then mkVector3d (X v / d)%D (Y v / d)%D (Z v / d)%D
  else v.

Definition qmul (a b : Quaterniond) : Quaterniond :=
  mkQuaterniond
    (qw a * qw b - qx a * qx b - qy a * qy b - qz a * qz b)%D
    (qw a * qx b + qx a * qw b + qy a * qz b - qz a * qy b)%D
    (qw a * qy b - qx a * qz b + qy a * qw b + qz a * qx b)%D
    (qw a * qz b + qx a * qy b - qy a * qx b + qz a * qw b)%D.

Definition Inverse (q : Quaterniond) : Quaterniond :=
  let s := (qw q * qw q + qx q * qx q + qy q * qy q + qz q * qz q)%D in
  if equal s (Fin 0)
  then mkQuaterniond (Fin 1) (Fin 0) (Fin 0) (Fin 0)
  else mkQuaterniond (qw q / s)%D (- qx q / s)%D (- qy q / s)%D
                     (- qz q / s)%D.

Definition RotateVector (q : Quaterniond) (v : Vector3d) : Vector3d :=
  let tmp := mkQuaterniond (Fin 0) (X v) (Y v) (Z v) in
  let tmp := qmul q (qmul tmp (Inverse q)) in
  mkVector3d (qx tmp) (qy tmp) (qz tmp).

Definition Update (pid : PID.t) (_error : double) (_dt : duration) :
    PID.t * double :=
  if (_dt =? 0)%Z || isnan _error || isinf _error then (pid, Fin 0) else
  let seconds := Fin (IZR _dt / 1000000000) in
  let pErr := _error in
  let pTerm := (PID.pGain pid * pErr)%D in
  let iErr := (PID.iErr pid + PID.iGain pid * seconds * pErr)%D in
  let iErr :=
    if (PID.iMax pid >=? PID.iMin pid)%D
    then clamp iErr (PID.iMin pid) (PID.iMax pid) else iErr in
  let dErr := ((pErr - PID.pErrLast pid) / seconds)%D in
  let pErrLast := pErr in
  let dTerm := (PID.dGain pid * dErr)%D in
  let cmd := (PID.cmdOffset pid - pTerm - iErr - dTerm)%D in
  let cmd :=
    if (PID.cmdMax pid >=? PID.cmdMin pid)%D
    then clamp cmd (PID.cmdMin pid) (PID.cmdMax pid) else cmd in
  (PID.mk (PID.pGain pid) (PID.iGain pid) (PID.dGain pid) (PID.iMax pid)
     (PID.iMin pid) (PID.cmdMax pid) (PID.cmdMin pid) (PID.cmdOffset pid)
     pErrLast pErr iErr dErr cmd,
   cmd).

(** Topic names made of letters, digits, [_] and [/] are valid as they
    are; the scenarios below use no other. *)
Definition AsValidTopic (topic : string) : string := topic.

End Reference.

Definition reference : Externals := {|
  Normalize := Reference.Normalize;
  RotateVector := Reference.RotateVector;
  PID_Update := Reference.Update;
  AsValidTopic := Reference.AsValidTopic
|}.

(* ===================================================================== *)
(** ** The conversion in binary64 *)
(* ===================================================================== *)

(** [ThrustToAngularVec] once more, this time on IEEE binary64 numbers
    (the primitive floats), for the properties that rounding, underflow
    and overflow decide.  The members it reads are its first arguments.
    IEEE 754 does not fix the result of the library function [pow]; it is a
    parameter. *)
Section Binary64.

Variable libm_pow : float → nat → float.



End Binary64.




(* ===================================================================== *)
(** ** Predicates on states *)
(* ===================================================================== *)

(** The scalar of the conversion: [fluidDensity * thrustCoefficient *
    pow(propellerDiameter, 4)] for finite parameters. *)
Definition denominator (rho c dia : R) : R := (rho * c * dia ^ 4)%R.

(** Two entity-component managers that differ at most in the wrench
    commands. *)
Definition same_but_wrench (a b : EntityComponentManager) : Prop :=
  Name a = Name b ∧ JointsOfModel a = JointsOfModel b
  ∧ LinksOfModel a = LinksOfModel b ∧ JointAxis a = JointAxis b
  ∧ ChildLinkName a = ChildLinkName b ∧ WorldPose a = WorldPose b
  ∧ AngularVelocity a = AngularVelocity b
  ∧ WorldAngularVelocity a = WorldAngularVelocity b.

(** The command bounds are the constants of the declaration, the command
    lies between them, and the physical parameters are those of [d0]. *)
Definition bounds_inv (d0 d : ThrusterPrivateData) : Prop :=
  cmdMin d = Fin (-1000) ∧ cmdMax d = Fin 1000
  ∧ (Fin (-1000) <=? thrust d)%D = true ∧ (thrust d <=? Fin 1000)%D = true
  ∧ fluidDensity d = fluidDensity d0
  ∧ thrustCoefficient d = thrustCoefficient d0
  ∧ propellerDiameter d = propellerDiameter d0.

(** The limits of the controller are those that [Configure] gave to
    [Init]. *)
Definition limits_inv (d0 d : ThrusterPrivateData) : Prop :=
  PID.cmdMin (rpmController d) = PID.cmdMin (rpmController d0)
  ∧ PID.cmdMax (rpmController d) = PID.cmdMax (rpmController d0).

(** What the development asks of [PID::Update]: it does not move the
    command limits of the controller. *)
Definition Update_keeps_limits `{Externals} : Prop :=
  ∀ pid e _dt,
    PID.cmdMin (PID_Update pid e _dt).1 = PID.cmdMin pid
    ∧ PID.cmdMax (PID_Update pid e _dt).1 = PID.cmdMax pid.

(* ===================================================================== *)
(** ** Scenarios *)
(* ===================================================================== *)

(** Scenario A of the design document: [thrustCoefficient = 1],
    [propellerDiameter = 0.02], [fluidDensity = 1000]. *)
Definition scenario_A : ThrusterPrivateData :=
  set_thrustCoefficient (Fin 1)
    (set_propellerDiameter (Fin 0.02)
       (set_fluidDensity (Fin 1000) Thruster_new)).

(** A model named "sub" (entity 1) whose joint "propeller_joint" (entity 5)
    turns the link "propeller" (entity 6) about the x axis. *)
Definition sub_ecm : EntityComponentManager := {|
  Name := {[ 1%N := "sub" ]};
  JointsOfModel := {[ (1%N, "propeller_joint") := 5%N ]};
  LinksOfModel := {[ (1%N, "propeller") := 6%N ]};
  JointAxis := {[ 5%N := mkVector3d (Fin 1) (Fin 0) (Fin 0) ]};
  ChildLinkName := {[ 5%N := "propeller" ]};
  WorldPose := {[ 6%N := Pose3d_Zero ]};
  AngularVelocity := ∅;
  WorldAngularVelocity := ∅;
  ExternalWorldWrenchCmd := ∅
|}.

(** The same world once the simulation runs: the link has its velocity
    components. *)
Definition running_ecm : EntityComponentManager :=
  set_velocities sub_ecm
    {[ 6%N := Vector3d_Zero ]} {[ 6%N := Vector3d_Zero ]}.

(** Scenario D: a plugin element without [<thrust_coefficient>]. *)
Definition sdf_no_coefficient : gmap string SdfValue :=
  <["joint_name" := SdfString "propeller_joint"]>
    (<["propeller_diameter" := SdfDouble (Fin 0.2)]> ∅).

(** A complete plugin element that sets the three gains. *)
Definition sdf_gains : gmap string SdfValue :=
  <["joint_name" := SdfString "propeller_joint"]>
    (<["thrust_coefficient" := SdfDouble (Fin 0.004)]>
       (<["propeller_diameter" := SdfDouble (Fin 0.2)]>
          (<["p_gain" := SdfDouble (Fin 0.2)]>
             (<["i_gain" := SdfDouble (Fin 0.5)]>
                (<["d_gain" := SdfDouble (Fin 0.3)]> ∅))))).

(** A complete plugin element whose thrust coefficient is zero, whose
    propeller diameter is negative and whose fluid density is zero. *)
Definition sdf_non_positive : gmap string SdfValue :=
  <["joint_name" := SdfString "propeller_joint"]>
    (<["thrust_coefficient" := SdfDouble (Fin 0)]>
       (<["propeller_diameter" := SdfDouble (Fin (-0.2))]>
          (<["fluid_density" := SdfDouble (Fin 0)]> ∅))).

(** The thruster of the submarine after a successful [Configure]: thrust
    coefficient 0.004, propeller diameter 0.2 m, water. *)
Definition active : ThrusterPrivateData * EntityComponentManager :=
  match Configure (H := reference) 1%N sdf_gains sub_ecm Thruster_new with
  | Some (d, _ecm, _) => (d, _ecm)
  | None => (Thruster_new, sub_ecm)
  end.

Definition cmd_thrust : string := "/model/sub/joint/propeller_joint/cmd_thrust".

(** A step of one millisecond, not paused, and the same step paused. *)
Definition a_step : UpdateInfo := mkUpdateInfo false 1000000%Z.
Definition a_paused_step : UpdateInfo := mkUpdateInfo true 1000000%Z.

(** A command above the bound, a step, and a world rewritten by the other
    systems. *)
Definition some_events : list Event :=
  [Message cmd_thrust (Fin 2000); Step a_step; World sub_ecm].

(* ===================================================================== *)
(** ** Facts about doubles *)
(* ===================================================================== *)

Ltac real_tests :=
  unfold Rltb, Reqb in *;
  repeat match goal with
    | |- context [Rlt_dec ?a ?b] => destruct (Rlt_dec a b)
    | |- context [Req_dec_T ?a ?b] => destruct (Req_dec_T a b)
    | H : context [Rlt_dec ?a ?b] |- _ => destruct (Rlt_dec a b)
    | H : context [Req_dec_T ?a ?b] |- _ => destruct (Req_dec_T a b)
    end.

Lemma Rltb_true (x y : R) : (x < y)%R → Rltb x y = true.
Proof. intros. real_tests; [reflexivity | contradiction]. Qed.

Lemma Rltb_false (x y : R) : (y <= x)%R → Rltb x y = false.
Proof. intros. real_tests; [lra | reflexivity]. Qed.

Lemma Reqb_false (x y : R) : x ≠ y → Reqb x y = false.
Proof. intros. real_tests; [contradiction | reflexivity]. Qed.

Lemma Reqb_true (x : R) : Reqb x x = true.
Proof. real_tests; [reflexivity | contradiction]. Qed.

Lemma dle_Fin (x y : R) : (Fin x <=? Fin y)%D = true ↔ (x <= y)%R.
Proof. simpl. real_tests; simpl; split; intros; try lra; congruence. Qed.

Lemma dlt_Fin (x y : R) : (Fin x <? Fin y)%D = true ↔ (x < y)%R.
Proof. simpl. real_tests; split; intros; try lra; congruence. Qed.

Lemma dle_not_nan (a b : double) :
  (a <=? b)%D = true → isnan a = false ∧ isnan b = false.
Proof. destruct a, b; simpl; intros; split; congruence. Qed.

(** [a <= b] excludes [a > b]. *)
Lemma dle_not_dgt (a b : double) :
  (a <=? b)%D = true → (a >? b)%D = false.
Proof.
  unfold dgt.
  destruct a as [|na|x], b as [|nb|y]; try destruct na; try destruct nb;
    simpl; try discriminate; try reflexivity.
  real_tests; simpl; try discriminate; try reflexivity; lra.
Qed.

(** [fixnan] returns a finite number. *)
Lemma fixnan_finite (v : double) : ∃ r, fixnan v = Fin r.
Proof. destruct v; simpl; eauto. Qed.

(** [clamp] of a number that is not a NaN lies between bounds that are in
    order. *)
Lemma clamp_between (v lo hi : double) :
  isnan v = false → (lo <=? hi)%D = true →
  (lo <=? clamp v lo hi)%D = true ∧ (clamp v lo hi <=? hi)%D = true.
Proof.
  unfold clamp, std_max, std_min.
  destruct v as [|nv|x], lo as [|nl|l], hi as [|nh|h];
    try destruct nv; try destruct nl; try destruct nh;
    simpl; try discriminate; intros _ Hle;
    real_tests; simpl; real_tests; simpl; split;
    real_tests; simpl;
    try reflexivity; try discriminate; try lra.
Qed.

(** [pow(x, 4)] of a finite number. *)
Lemma pow_Fin_4 (x : R) : pow (Fin x) 4 = Fin (x ^ 4)%R.
Proof. reflexivity. Qed.

Lemma denominator_pos (rho c dia : R) :
  (0 < rho)%R → (0 < c)%R → (0 < dia)%R → (0 < denominator rho c dia)%R.
Proof.
  intros Hr Hc Hd. unfold denominator.
  apply Rmult_lt_0_compat; [apply Rmult_lt_0_compat; assumption|].
  apply pow_lt. assumption.
Qed.

(** The conversion on a finite thrust, for finite parameters whose product
    is not zero: the formula of the source over the reals. *)
Lemma ThrustToAngularVec_Fin (d : ThrusterPrivateData) (rho c dia t : R) :
  fluidDensity d = Fin rho → thrustCoefficient d = Fin c →
  propellerDiameter d = Fin dia → denominator rho c dia ≠ 0%R →
  ThrustToAngularVec d (Fin t) =
    Fin (sqrt (Rabs (t / denominator rho c dia))
         * (if Rlt_dec 0 t then 1 else -1))%R.
Proof.
  intros Hr Hc Hd Hk. unfold ThrustToAngularVec.
  rewrite Hr, Hc, Hd, pow_Fin_4. cbn [dmul ddiv].
  fold (denominator rho c dia). rewrite (Reqb_false _ _ Hk).
  cbn [dabs dsqrt]. rewrite Rltb_false by apply Rabs_pos.
  unfold dgt. cbn [dlt]. unfold Rltb.
  destruct (Rlt_dec 0 t); reflexivity.
Qed.

(* ===================================================================== *)
(** ** The conversion from thrust to angular velocity *)
(* ===================================================================== *)

Lemma scenario_A_value :
  ThrustToAngularVec scenario_A (Fin 100) = Fin (sqrt 625000).
Proof.
  rewrite (ThrustToAngularVec_Fin scenario_A 1000 1 0.02 100);
    try reflexivity.
  - assert (Hq : (100 / denominator 1000 1 0.02 = 625000)%R)
      by (unfold denominator; lra).
    rewrite Hq, Rabs_pos_eq by lra.
    destruct (Rlt_dec 0 100); [f_equal; lra | lra].
  - unfold denominator; lra.
Qed.

Lemma sqrt_625000_bounds : (790.56 < sqrt 625000 < 790.57)%R.
Proof.
  split.
  - rewrite <- (sqrt_square 790.56) by lra. apply sqrt_lt_1; lra.
  - rewrite <- (sqrt_square 790.57) by lra. apply sqrt_lt_1; lra.
Qed.

(** C4, as the code has it: in scenario A the conversion of a thrust of
    100 N is [sqrt (100 / (1000 * 1 * 0.02^4))], and that number is
    [sqrt 625000], between 790.56 and 790.57 rad/s. *)
Theorem ThrustToAngularVec_scenario_A :
  ThrustToAngularVec scenario_A (Fin 100)
    = Fin (sqrt (100 / (1000 * 1 * 0.02 ^ 4)))
  ∧ (790.56 < sqrt (100 / (1000 * 1 * 0.02 ^ 4)) < 790.57)%R.
Proof.
  assert (Hq : (100 / (1000 * 1 * 0.02 ^ 4) = 625000)%R) by lra.
  rewrite Hq. split; [apply scenario_A_value | apply sqrt_625000_bounds].
Qed.

(** C4, as the spec states it, fails: the conversion of 100 N in scenario A
    is not within 0.01 of 1118.03 rad/s. *)
Lemma ThrustToAngularVec_scenario_A_not_1118 :
  ¬ ∃ w : R, ThrustToAngularVec scenario_A (Fin 100) = Fin w
             ∧ (Rabs (w - 1118.03) <= 0.01)%R.
Proof.
  intros [w [Hw Hnear]]. rewrite scenario_A_value in Hw.
  injection Hw as <-. pose proof sqrt_625000_bounds as [_ Hhi].
  unfold Rabs in Hnear. destruct (Rcase_abs _) in Hnear; lra.
Qed.

(* --------------------------------------------------------------------- *)
(** *** The conversion in binary64 *)
(* --------------------------------------------------------------------- *)

















(* ===================================================================== *)
(** ** Command intake *)
(* ===================================================================== *)

(** C5: whatever the message holds (a finite number, a NaN or an
    infinity), the command stored by [OnCmdThrust] lies between [cmdMin] and
    [cmdMax], and for a NaN it is the clamp of zero. *)
Theorem OnCmdThrust_within_bounds (d : ThrusterPrivateData) (_msg : double) :
  (cmdMin d <=? cmdMax d)%D = true →
  (cmdMin (OnCmdThrust d _msg) <=? thrust (OnCmdThrust d _msg))%D = true
  ∧ (thrust (OnCmdThrust d _msg) <=? cmdMax (OnCmdThrust d _msg))%D = true
  ∧ (isnan _msg = true →
     thrust (OnCmdThrust d _msg) = clamp (Fin 0) (cmdMin d) (cmdMax d)).
Proof.
  intros Hle. cbn [OnCmdThrust set_thrust thrust cmdMin cmdMax].
  destruct (fixnan_finite _msg) as [r Hr].
  destruct (clamp_between (fixnan _msg) (cmdMin d) (cmdMax d)) as [Hlo Hhi];
    [rewrite Hr; reflexivity | assumption |].
  repeat split; try assumption.
  intros Hnan. destruct _msg; try discriminate Hnan. reflexivity.
Qed.

Lemma OnCmdThrust_within_bounds_witness :
  (cmdMin Thruster_new <=? cmdMax Thruster_new)%D = true
  ∧ (Fin (-1000) <=? thrust (OnCmdThrust Thruster_new (Inf false)))%D = true
  ∧ (thrust (OnCmdThrust Thruster_new (Inf false)) <=? Fin 1000)%D = true.
Proof.
  assert (H0 : (cmdMin Thruster_new <=? cmdMax Thruster_new)%D = true)
    by (apply dle_Fin; lra).
  split; [exact H0|].
  destruct (OnCmdThrust_within_bounds Thruster_new (Inf false) H0)
    as (Hlo & Hhi & _).
  split; [exact Hlo | exact Hhi].
Defined.

(* ===================================================================== *)
(** ** Configuration *)
(* ===================================================================== *)

Section Configuration.

Context `{Externals}.

Lemma HasElement_false (_sdf : gmap string SdfValue) (key : string) :
  HasElement _sdf key = false → Get_double _sdf key = Fin 0.
Proof.
  unfold HasElement, Get_double. destruct (_sdf !! key); [discriminate|].
  reflexivity.
Qed.

(** What [Configure] leaves behind at each of its returns. *)
Lemma Configure_inv (_entity : Entity) (_sdf : gmap string SdfValue)
    (_ecm _ecm' : EntityComponentManager) (d d' : ThrusterPrivateData)
    (log : ConfigureLog) :
  Configure _entity _sdf _ecm d = Some (d', _ecm', log) →
  thrust d' = thrust d ∧ cmdMin d' = cmdMin d ∧ cmdMax d' = cmdMax d
  ∧ (log ≠ Listening →
     node d' = node d ∧ linkEntity d' = linkEntity d
     ∧ jointAxis d' = jointAxis d ∧ rpmController d' = rpmController d
     ∧ _ecm' = _ecm)
  ∧ (log = Listening →
     thrustCoefficient d' = Get_double _sdf "thrust_coefficient"
     ∧ propellerDiameter d' = Get_double _sdf "propeller_diameter"
     ∧ fluidDensity d' =
         (if HasElement _sdf "fluid_density"
          then Get_double _sdf "fluid_density" else fluidDensity d)
     ∧ rpmController d' =
         PID.Init
           (if HasElement _sdf "p_gain" then Get_double _sdf "p_gain"
            else Fin 0.1)
           (if negb (HasElement _sdf "i_gain")
            then Get_double _sdf "i_gain" else Fin 0)
           (if negb (HasElement _sdf "d_gain")
            then Get_double _sdf "d_gain" else Fin 0)
           (Fin 1) (Fin (-1))
           (ThrustToAngularVec d' (cmdMax d'))
           (ThrustToAngularVec d' (cmdMin d'))
           (Fin 0)
     ∧ is_Some (Link_WorldAngularVelocity _ecm' (linkEntity d'))).
Proof.
  unfold Configure.
  destruct (HasElement _sdf "joint_name"); cbn [negb];
    [|intros [= <- <- <-]; repeat split; congruence].
  destruct (HasElement _sdf "thrust_coefficient"); cbn [negb];
    [|intros [= <- <- <-]; repeat split; congruence].
  destruct (HasElement _sdf "propeller_diameter"); cbn [negb];
    [|intros [= <- <- <-]; repeat split; congruence].
  destruct (kNullEntity =? _)%N;
    [intros [= <- <- <-]; destruct (HasElement _sdf "fluid_density");
     repeat split; congruence|].
  destruct (JointAxis _ecm !! _) as [axis|]; [|discriminate].
  cbn [mbind option_bind].
  destruct (ChildLinkName _ecm !! _) as [childLink|]; [|discriminate].
  cbn [mbind option_bind]. intros [= <- <- <-].
  split; [destruct (HasElement _sdf "fluid_density"); reflexivity|].
  split; [destruct (HasElement _sdf "fluid_density"); reflexivity|].
  split; [destruct (HasElement _sdf "fluid_density"); reflexivity|].
  split; [congruence|]. intros _.
  destruct (HasElement _sdf "fluid_density");
    (repeat split; try reflexivity);
    unfold Link_WorldAngularVelocity, enableComponent; cbn;
    match goal with
    | |- context [WorldAngularVelocity _ecm !! ?e] =>
        destruct (WorldAngularVelocity _ecm !! e) eqn:Hw;
        [rewrite Hw; eauto | rewrite lookup_insert_eq; eauto]
    end.
Qed.

(** The return that [Configure] takes. *)
Lemma Configure_log (_entity : Entity) (_sdf : gmap string SdfValue)
    (_ecm _ecm' : EntityComponentManager) (d d' : ThrusterPrivateData)
    (log : ConfigureLog) :
  Configure _entity _sdf _ecm d = Some (d', _ecm', log) →
  log =
    if negb (HasElement _sdf "joint_name") then MissingJointName
    else if negb (HasElement _sdf "thrust_coefficient")
    then MissingThrustCoefficient
    else if negb (HasElement _sdf "propeller_diameter")
    then MissingPropellerDiameter
    else if (kNullEntity =?
             JointByName _ecm _entity (Get_string _sdf "joint_name"))%N
    then JointNotFound
    else Listening.
Proof.
  unfold Configure.
  destruct (HasElement _sdf "joint_name"); cbn [negb]; [|congruence].
  destruct (HasElement _sdf "thrust_coefficient"); cbn [negb]; [|congruence].
  destruct (HasElement _sdf "propeller_diameter"); cbn [negb]; [|congruence].
  destruct (kNullEntity =? _)%N; [congruence|].
  destruct (JointAxis _ecm !! _); [|discriminate]. cbn [mbind option_bind].
  destruct (ChildLinkName _ecm !! _); [|discriminate].
  cbn [mbind option_bind]. congruence.
Qed.

(** [Configure] returns whenever the joint it finds has an axis and a
    child link. *)
Lemma Configure_returns (_entity : Entity) (_sdf : gmap string SdfValue)
    (_ecm : EntityComponentManager) (d : ThrusterPrivateData) :
  (∀ j, j = JointByName _ecm _entity (Get_string _sdf "joint_name") →
        j ≠ kNullEntity →
        is_Some (JointAxis _ecm !! j) ∧ is_Some (ChildLinkName _ecm !! j)) →
  is_Some (Configure _entity _sdf _ecm d).
Proof.
  intros Hj. unfold Configure.
  destruct (HasElement _sdf "joint_name"); cbn [negb]; [|eauto].
  destruct (HasElement _sdf "thrust_coefficient"); cbn [negb]; [|eauto].
  destruct (HasElement _sdf "propeller_diameter"); cbn [negb]; [|eauto].
  destruct (kNullEntity =? _)%N eqn:Hnull; [eauto|].
  apply N.eqb_neq in Hnull.
  destruct (Hj _ eq_refl) as [[axis Ha] [child Hc]]; [congruence|].
  rewrite Ha. cbn [mbind option_bind]. rewrite Hc.
  cbn [mbind option_bind]. eauto.
Qed.

End Configuration.

Section ConfigurationClaims.

Context `{Externals}.

(** C2, as the code has it: after a successful [Configure] the
    proportional gain is the value of [<p_gain>] when the tag is present
    and 0.1 otherwise, and the integral and derivative gains are zero
    whether [<i_gain>] and [<d_gain>] are present or not: a value
    configured for either of them is never read. *)
Theorem Configure_gains (_entity : Entity) (_sdf : gmap string SdfValue)
    (_ecm _ecm' : EntityComponentManager) (d d' : ThrusterPrivateData) :
  Configure _entity _sdf _ecm d = Some (d', _ecm', Listening) →
  PID.pGain (rpmController d') =
    (if HasElement _sdf "p_gain" then Get_double _sdf "p_gain" else Fin 0.1)
  ∧ PID.iGain (rpmController d') = Fin 0
  ∧ PID.dGain (rpmController d') = Fin 0.
Proof.
  intros Hc. apply Configure_inv in Hc as (_ & _ & _ & _ & Hc).
  destruct (Hc eq_refl) as (_ & _ & _ & -> & _). cbn.
  split; [reflexivity|].
  split.
  - destruct (HasElement _sdf "i_gain") eqn:Hi; cbn [negb];
      [reflexivity | apply HasElement_false, Hi].
  - destruct (HasElement _sdf "d_gain") eqn:Hd; cbn [negb];
      [reflexivity | apply HasElement_false, Hd].
Qed.

(** C3, as the code has it: [Configure] ends Unconfigured exactly when
    [<joint_name>], [<thrust_coefficient>] or [<propeller_diameter>] is
    missing or the model has no joint of that name; when it ends Active,
    the thrust coefficient, the propeller diameter and the fluid density
    are the configured values, whatever their sign. *)
Theorem Configure_checks_presence_only (_entity : Entity)
    (_sdf : gmap string SdfValue) (_ecm _ecm' : EntityComponentManager)
    (d d' : ThrusterPrivateData) (log : ConfigureLog) :
  Configure _entity _sdf _ecm d = Some (d', _ecm', log) →
  (phase log = Unconfigured ↔
     HasElement _sdf "joint_name" = false
     ∨ HasElement _sdf "thrust_coefficient" = false
     ∨ HasElement _sdf "propeller_diameter" = false
     ∨ JointByName _ecm _entity (Get_string _sdf "joint_name") = kNullEntity)
  ∧ (phase log = Active →
     thrustCoefficient d' = Get_double _sdf "thrust_coefficient"
     ∧ propellerDiameter d' = Get_double _sdf "propeller_diameter"
     ∧ fluidDensity d' =
         (if HasElement _sdf "fluid_density"
          then Get_double _sdf "fluid_density" else fluidDensity d)).
Proof.
  intros Hc. pose proof (Configure_log _ _ _ _ _ _ _ Hc) as Hlog.
  apply Configure_inv in Hc as (_ & _ & _ & _ & Hc).
  split.
  - rewrite Hlog.
    destruct (HasElement _sdf "joint_name"); cbn [negb phase];
      [|split; auto].
    destruct (HasElement _sdf "thrust_coefficient"); cbn [negb phase];
      [|split; auto].
    destruct (HasElement _sdf "propeller_diameter"); cbn [negb phase];
      [|split; auto].
    destruct (N.eqb_spec kNullEntity
                (JointByName _ecm _entity (Get_string _sdf "joint_name")))
      as [Heq|Hne]; cbn [phase].
    + split; auto.
    + split; [discriminate|].
      intros [?|[?|[?|?]]]; congruence.
  - intros Hactive.
    assert (log = Listening) as ->
      by (destruct log; try discriminate Hactive; reflexivity).
    destruct (Hc eq_refl) as (? & ? & ? & _). auto.
Qed.

End ConfigurationClaims.

Lemma Configure_gains_witness :
  ∃ d' _ecm',
    Configure (H := reference) 1%N sdf_gains sub_ecm Thruster_new
      = Some (d', _ecm', Listening)
    ∧ sdf_gains !! "i_gain" = Some (SdfDouble (Fin 0.5))
    ∧ sdf_gains !! "d_gain" = Some (SdfDouble (Fin 0.3))
    ∧ PID.pGain (rpmController d') = Fin 0.2
    ∧ PID.iGain (rpmController d') = Fin 0
    ∧ PID.dGain (rpmController d') = Fin 0.
Proof.
  eexists _, _.
  assert (Hc : Configure (H := reference) 1%N sdf_gains sub_ecm Thruster_new
               = Some (_, _, Listening)) by reflexivity.
  split; [exact Hc|].
  destruct (Configure_gains (H := reference) _ _ _ _ _ _ Hc)
    as (Hp & Hi & Hd).
  repeat split; try reflexivity; assumption.
Defined.

(** C3, as the spec states it, fails: a configuration whose thrust
    coefficient is zero, whose propeller diameter is negative and whose
    fluid density is zero is accepted, and the component is Active. *)
Lemma Configure_accepts_non_positive :
  ∃ d' _ecm',
    Configure (H := reference) 1%N sdf_non_positive sub_ecm Thruster_new
      = Some (d', _ecm', Listening)
    ∧ phase Listening = Active
    ∧ thrustCoefficient d' = Fin 0
    ∧ propellerDiameter d' = Fin (-0.2)
    ∧ fluidDensity d' = Fin 0.
Proof.
  eexists _, _. split; [reflexivity|]. repeat split.
Qed.

Lemma Configure_checks_presence_only_witness :
  ∃ d' _ecm',
    Configure (H := reference) 1%N sdf_gains sub_ecm Thruster_new
      = Some (d', _ecm', Listening)
    ∧ thrustCoefficient d' = Fin 0.004
    ∧ propellerDiameter d' = Fin 0.2
    ∧ fluidDensity d' = Fin 1000.
Proof.
  eexists _, _.
  assert (Hc : Configure (H := reference) 1%N sdf_gains sub_ecm Thruster_new
               = Some (_, _, Listening)) by reflexivity.
  split; [exact Hc|].
  destruct (Configure_checks_presence_only (H := reference) _ _ _ _ _ _ _ Hc)
    as (_ & Hvalues).
  destruct (Hvalues eq_refl) as (Hc' & Hd & Hf).
  repeat split; assumption.
Defined.

(* ===================================================================== *)
(** ** The simulation step *)
(* ===================================================================== *)

Section Step.

Context `{Externals}.

(** The step with the pause flag off, on a link that has its world
    angular velocity. *)
Lemma PreUpdate_unpaused (_info : UpdateInfo)
    (_ecm : EntityComponentManager) (d : ThrusterPrivateData)
    (w : Vector3d) :
  paused _info = false →
  Link_WorldAngularVelocity _ecm (linkEntity d) = Some w →
  PreUpdate _info _ecm d =
    Some (set_rpmController (dead_band _info d (angularError _ecm d w)).1
            (set_jointAxis (Normalize (jointAxis d)) d),
          AddWorldWrench _ecm (linkEntity d)
            (vscale (unitVector _ecm d) (thrust d))
            (vscale (unitVector _ecm d)
               (dead_band _info d (angularError _ecm d w)).2)).
Proof.
  intros Hp Hw. unfold PreUpdate. rewrite Hp.
  cbn [linkEntity set_jointAxis jointAxis thrust rpmController].
  rewrite Hw. cbn [mbind option_bind].
  unfold dead_band, angularError, unitVector, ThrustToAngularVec.
  cbn [fluidDensity thrustCoefficient propellerDiameter set_jointAxis].
  destruct (dabs _ >? Fin 0.1)%D; [|reflexivity].
  destruct (PID_Update _ _ _); reflexivity.
Qed.

(** Without that component the step dereferences an empty optional. *)
Lemma PreUpdate_no_velocity (_info : UpdateInfo)
    (_ecm : EntityComponentManager) (d : ThrusterPrivateData) :
  paused _info = false →
  Link_WorldAngularVelocity _ecm (linkEntity d) = None →
  PreUpdate _info _ecm d = None.
Proof. intros Hp Hw. unfold PreUpdate. rewrite Hp. cbn. rewrite Hw. reflexivity. Qed.

(** C8: with the pause flag on, [PreUpdate] returns at once: the
    component (stored command, controller, joint axis and the rest) and
    the entity-component manager (the wrench of every link included) are
    what they were. *)
Theorem PreUpdate_paused (_info : UpdateInfo)
    (_ecm : EntityComponentManager) (d : ThrusterPrivateData) :
  paused _info = true → PreUpdate _info _ecm d = Some (d, _ecm).
Proof. intros Hp. unfold PreUpdate. rewrite Hp. reflexivity. Qed.

(** C7: in a step that is not paused, when the absolute angular error is
    at most 0.1 the torque of the wrench is the axis scaled by 0 and the
    controller is the one of before the step; when it is above 0.1 the
    torque is the axis scaled by the value [Update] returns, and the
    controller is the one [Update] leaves.  At an error of exactly 0.1 the
    torque is zero. *)
Theorem PreUpdate_dead_band (_info : UpdateInfo)
    (_ecm : EntityComponentManager) (d : ThrusterPrivateData)
    (w : Vector3d) :
  paused _info = false →
  Link_WorldAngularVelocity _ecm (linkEntity d) = Some w →
  let u := unitVector _ecm d in
  let e := angularError _ecm d w in
  ((dabs e <=? Fin 0.1)%D = true →
     PreUpdate _info _ecm d =
       Some (set_jointAxis (Normalize (jointAxis d)) d,
             AddWorldWrench _ecm (linkEntity d)
               (vscale u (thrust d)) (vscale u (Fin 0))))
  ∧ ((dabs e >? Fin 0.1)%D = true →
     PreUpdate _info _ecm d =
       Some (set_rpmController (PID_Update (rpmController d) e (dt _info)).1
               (set_jointAxis (Normalize (jointAxis d)) d),
             AddWorldWrench _ecm (linkEntity d)
               (vscale u (thrust d))
               (vscale u (PID_Update (rpmController d) e (dt _info)).2)))
  ∧ (e = Fin 0.1 →
     PreUpdate _info _ecm d =
       Some (set_jointAxis (Normalize (jointAxis d)) d,
             AddWorldWrench _ecm (linkEntity d)
               (vscale u (thrust d)) (vscale u (Fin 0)))).
Proof.
  intros Hp Hw u e.
  assert (Hin : (dabs e >? Fin 0.1)%D = false →
            PreUpdate _info _ecm d =
              Some (set_jointAxis (Normalize (jointAxis d)) d,
                    AddWorldWrench _ecm (linkEntity d)
                      (vscale u (thrust d)) (vscale u (Fin 0)))).
  { intros Hgt. rewrite (PreUpdate_unpaused _ _ _ w Hp Hw).
    unfold dead_band. fold e. rewrite Hgt. cbn [fst snd].
    destruct d; reflexivity. }
  split; [|split].
  - intros Hle. apply Hin, dle_not_dgt, Hle.
  - intros Hgt. rewrite (PreUpdate_unpaused _ _ _ w Hp Hw).
    unfold dead_band. fold e. rewrite Hgt. reflexivity.
  - intros He. apply Hin. rewrite He. unfold dgt. cbn [dabs dlt].
    apply Rltb_false. rewrite Rabs_pos_eq; lra.
Qed.

End Step.

Section StepClaims.

Context `{Externals}.

(** C9: a step that is not paused, on a link that has its world angular
    velocity (as the link of an Active component has), adds to the wrench
    command of the driven link the force [unitVector * thrust] and the
    torque [unitVector * torque], with [torque] the result of the dead
    band; a wrench already commanded on the link in this step is kept and
    added to; the wrench commands of the other entities and all the other
    components are untouched. *)
Theorem PreUpdate_adds_wrench (_info : UpdateInfo)
    (_ecm : EntityComponentManager) (d : ThrusterPrivateData)
    (w : Vector3d) :
  paused _info = false →
  Link_WorldAngularVelocity _ecm (linkEntity d) = Some w →
  let u := unitVector _ecm d in
  let tq := (dead_band _info d (angularError _ecm d w)).2 in
  ∃ d' _ecm',
    PreUpdate _info _ecm d = Some (d', _ecm')
    ∧ ExternalWorldWrenchCmd _ecm' !! linkEntity d =
        Some (match ExternalWorldWrenchCmd _ecm !! linkEntity d with
              | None => mkWrench (vscale u (thrust d)) (vscale u tq)
              | Some w0 =>
                  mkWrench (vadd (force w0) (vscale u (thrust d)))
                           (vadd (torque w0) (vscale u tq))
              end)
    ∧ (∀ e, e ≠ linkEntity d →
         ExternalWorldWrenchCmd _ecm' !! e = ExternalWorldWrenchCmd _ecm !! e)
    ∧ same_but_wrench _ecm' _ecm
    ∧ thrust d' = thrust d.
Proof.
  intros Hp Hw u tq. eexists _, _.
  split; [apply (PreUpdate_unpaused _ _ _ w Hp Hw)|].
  unfold AddWorldWrench. cbn [ExternalWorldWrenchCmd set_ExternalWorldWrenchCmd].
  split; [apply lookup_insert_eq|].
  split; [intros e He; apply lookup_insert_ne; congruence|].
  split; [repeat split|reflexivity].
Qed.

(** C1: in scenario D, [Configure] returns at the missing
    [<thrust_coefficient>] and leaves the component as it was: no
    subscription, a default controller and the null [linkEntity].  A later
    [PreUpdate] with the pause flag off does not return early: it runs the
    step on the null entity, where it dereferences the empty optional of
    [Link::WorldAngularVelocity]. *)
Theorem Unconfigured_PreUpdate_runs (_dt : duration) :
  Configure 1%N sdf_no_coefficient running_ecm Thruster_new
    = Some (Thruster_new, running_ecm, MissingThrustCoefficient)
  ∧ phase MissingThrustCoefficient = Unconfigured
  ∧ node Thruster_new = []
  ∧ linkEntity Thruster_new = kNullEntity
  ∧ Link_WorldAngularVelocity running_ecm kNullEntity = None
  ∧ PreUpdate (mkUpdateInfo false _dt) running_ecm Thruster_new = None
  ∧ PreUpdate (mkUpdateInfo false _dt) running_ecm Thruster_new
      ≠ Some (Thruster_new, running_ecm).
Proof.
  repeat split; try reflexivity. discriminate.
Qed.

End StepClaims.

(* ===================================================================== *)
(** ** Invariants of a run *)
(* ===================================================================== *)

(** The conversion reads three members only. *)
Lemma ThrustToAngularVec_ext (d d' : ThrusterPrivateData) (t : double) :
  fluidDensity d' = fluidDensity d →
  thrustCoefficient d' = thrustCoefficient d →
  propellerDiameter d' = propellerDiameter d →
  ThrustToAngularVec d' t = ThrustToAngularVec d t.
Proof. unfold ThrustToAngularVec. intros -> -> ->. reflexivity. Qed.

Section HostFacts.

Context `{Externals}.

Lemma run_cons (ev : Event) (evs : list Event)
    (s s' : ThrusterPrivateData * EntityComponentManager) :
  handle ev s = Some s' → run (ev :: evs) s = run evs s'.
Proof. intros Hs. cbn [run]. rewrite Hs. reflexivity. Qed.

Lemma handle_Message (topic : string) (_msg : double)
    (d : ThrusterPrivateData) (e : EntityComponentManager) :
  bool_decide (topic ∈ node d) = true →
  handle (Message topic _msg) (d, e) = Some (OnCmdThrust d _msg, e).
Proof. intros Hs. cbn [handle fst snd]. rewrite Hs. reflexivity. Qed.

Lemma handle_Step (_info : UpdateInfo) (d : ThrusterPrivateData)
    (e : EntityComponentManager)
    (s' : ThrusterPrivateData * EntityComponentManager) :
  PreUpdate _info e d = Some s' → handle (Step _info) (d, e) = Some s'.
Proof. intros Hs. exact Hs. Qed.

End HostFacts.

Section Invariants.

Context `{Externals}.

Lemma OnCmdThrust_bounds_inv (d0 d : ThrusterPrivateData) (_msg : double) :
  bounds_inv d0 d → bounds_inv d0 (OnCmdThrust d _msg).
Proof.
  intros (Hmin & Hmax & Hlo & Hhi & Hf & Hc & Hp).
  destruct (fixnan_finite _msg) as [r Hr].
  destruct (clamp_between (fixnan _msg) (cmdMin d) (cmdMax d)) as [Hl Hh].
  { rewrite Hr. reflexivity. }
  { rewrite Hmin, Hmax. apply dle_Fin. lra. }
  rewrite Hmin in Hl at 1. rewrite Hmax in Hh at 2.
  unfold bounds_inv. cbn. auto 10.
Qed.

Lemma PreUpdate_bounds_inv (d0 d d' : ThrusterPrivateData)
    (_info : UpdateInfo) (_ecm _ecm' : EntityComponentManager) :
  PreUpdate _info _ecm d = Some (d', _ecm') →
  bounds_inv d0 d → bounds_inv d0 d'.
Proof.
  destruct (paused _info) eqn:Hp.
  - unfold PreUpdate. rewrite Hp. intros [= <- <-]. auto.
  - destruct (Link_WorldAngularVelocity _ecm (linkEntity d)) as [w|] eqn:Hw.
    + rewrite (PreUpdate_unpaused _ _ _ w Hp Hw). intros [= <- <-]. auto.
    + rewrite PreUpdate_no_velocity by assumption. discriminate.
Qed.

Lemma PreUpdate_limits_inv (d0 d d' : ThrusterPrivateData)
    (_info : UpdateInfo) (_ecm _ecm' : EntityComponentManager) :
  Update_keeps_limits →
  PreUpdate _info _ecm d = Some (d', _ecm') →
  limits_inv d0 d → limits_inv d0 d'.
Proof.
  intros Hupd. destruct (paused _info) eqn:Hp.
  - unfold PreUpdate. rewrite Hp. intros [= <- <-]. auto.
  - destruct (Link_WorldAngularVelocity _ecm (linkEntity d)) as [w|] eqn:Hw.
    + rewrite (PreUpdate_unpaused _ _ _ w Hp Hw). intros [= <- <-].
      unfold limits_inv, dead_band. cbn [rpmController set_rpmController].
      intros [Hmin Hmax].
      destruct (dabs _ >? Fin 0.1)%D; cbn [fst]; [|auto].
      destruct (Hupd (rpmController d) (angularError _ecm d w) (dt _info))
        as [-> ->]. auto.
    + rewrite PreUpdate_no_velocity by assumption. discriminate.
Qed.

Lemma run_inv (evs : list Event) (d0 : ThrusterPrivateData) :
  Update_keeps_limits →
  ∀ s s', run evs s = Some s' →
    bounds_inv d0 s.1 ∧ limits_inv d0 s.1 →
    bounds_inv d0 s'.1 ∧ limits_inv d0 s'.1.
Proof.
  intros Hupd. induction evs as [|ev evs IH]; intros [d e] s'; cbn [run].
  - intros [= <-]. auto.
  - destruct (handle ev (d, e)) as [[d1 e1]|] eqn:Hev; [|discriminate].
    cbn [mbind option_bind]. intros Hrun Hinv. apply (IH _ _ Hrun).
    cbn [fst] in *. destruct Hinv as [Hb Hl].
    destruct ev as [topic _msg|_info|_ecm]; cbn [handle fst snd] in Hev.
    + injection Hev as <- <-.
      destruct (bool_decide _); [|auto].
      split; [apply OnCmdThrust_bounds_inv, Hb | exact Hl].
    + split; [eapply PreUpdate_bounds_inv | eapply PreUpdate_limits_inv];
        eauto.
    + injection Hev as <- <-. auto.
Qed.

(** C10: no option of the configuration reaches [cmdMin] and [cmdMax];
    after [Configure], however it returns, and any sequence of messages,
    steps and changes of the world, they are -1000 and 1000, the stored
    command lies between them, and, when the component is Active, the
    command limits of the controller are the conversions of -1000 and
    1000 (given that [PID::Update] leaves the limits alone). *)
Theorem command_bounds_are_constants (_entity : Entity)
    (_sdf : gmap string SdfValue) (_ecm : EntityComponentManager)
    (evs : list Event) (d1 d2 : ThrusterPrivateData)
    (_ecm1 _ecm2 : EntityComponentManager) (log : ConfigureLog) :
  Update_keeps_limits →
  Configure _entity _sdf _ecm Thruster_new = Some (d1, _ecm1, log) →
  run evs (d1, _ecm1) = Some (d2, _ecm2) →
  cmdMin d2 = Fin (-1000) ∧ cmdMax d2 = Fin 1000
  ∧ (Fin (-1000) <=? thrust d2)%D = true
  ∧ (thrust d2 <=? Fin 1000)%D = true
  ∧ (phase log = Active →
     PID.cmdMin (rpmController d2) = ThrustToAngularVec d2 (Fin (-1000))
     ∧ PID.cmdMax (rpmController d2) = ThrustToAngularVec d2 (Fin 1000)).
Proof.
  intros Hupd Hc Hrun.
  apply Configure_inv in Hc as (Ht & Hmin & Hmax & _ & Hact).
  cbn in Ht, Hmin, Hmax.
  destruct (run_inv evs d1 Hupd _ _ Hrun) as [Hb Hl].
  { cbn [fst]. split; [|split; reflexivity].
    unfold bounds_inv. rewrite Ht, Hmin, Hmax.
    repeat split; try reflexivity; apply dle_Fin; lra. }
  cbn [fst] in Hb, Hl.
  destruct Hb as (Hmin2 & Hmax2 & Hlo & Hhi & Hf & Hco & Hp).
  do 4 (split; [assumption|]).
  intros Hactive. destruct Hl as [-> ->].
  assert (log = Listening) as ->
    by (destruct log; try discriminate Hactive; reflexivity).
  destruct (Hact eq_refl) as (_ & _ & _ & -> & _).
  cbn [PID.cmdMin PID.cmdMax PID.Init]. rewrite Hmin, Hmax.
  split; apply eq_sym, ThrustToAngularVec_ext; assumption.
Qed.

End Invariants.

(* ===================================================================== *)
(** ** A run of the model: the submarine with its propeller *)
(* ===================================================================== *)

Ltac real_arith :=
  unfold Rabs;
  repeat match goal with
    | |- context [Rcase_abs ?x] => destruct (Rcase_abs x)
    end;
  lra.

Ltac decide_reals :=
  repeat match goal with
    | |- context [Rltb ?a ?b] =>
        first [ rewrite (Rltb_true a b) by real_arith
              | rewrite (Rltb_false a b) by real_arith ]
    | |- context [Reqb ?a ?b] =>
        first [ rewrite (Reqb_false a b) by real_arith
              | replace b with a by real_arith; rewrite (Reqb_true a) ]
    end.

Ltac run_doubles :=
  repeat (cbn [X Y Z qw qx qy qz dmul dadd dsub dneg ddiv dsqrt dabs dle dlt
               dgt negb xorb andb orb];
          decide_reals).

Lemma Normalize_x_axis :
  Reference.Normalize (mkVector3d (Fin 1) (Fin 0) (Fin 0))
  = mkVector3d (Fin 1) (Fin 0) (Fin 0).
Proof.
  unfold Reference.Normalize, Reference.Length, Reference.equal.
  cbn [X Y Z dmul dadd].
  replace (1 * 1 + 0 * 0 + 0 * 0)%R with 1%R by lra.
  cbn [dsqrt]. rewrite sqrt_1. run_doubles.
  f_equal; f_equal; lra.
Qed.

Lemma RotateVector_identity (x y z : R) :
  Reference.RotateVector Quaterniond_Identity
    (mkVector3d (Fin x) (Fin y) (Fin z))
  = mkVector3d (Fin x) (Fin y) (Fin z).
Proof.
  unfold Reference.RotateVector, Reference.Inverse, Reference.qmul,
    Reference.equal, Quaterniond_Identity.
  run_doubles. f_equal; f_equal; field.
Qed.

Lemma Reference_Update_keeps_limits : Update_keeps_limits (H := reference).
Proof.
  intros pid e _dt. cbn [PID_Update reference]. unfold Reference.Update.
  destruct (_ || _ || _); split; reflexivity.
Qed.

Lemma active_Configure :
  Configure (H := reference) 1%N sdf_gains sub_ecm Thruster_new
  = Some (active.1, active.2, Listening).
Proof. reflexivity. Qed.

Lemma active_velocity :
  Link_WorldAngularVelocity active.2 (linkEntity active.1)
  = Some Vector3d_Zero.
Proof. reflexivity. Qed.

Lemma active_unitVector (d : ThrusterPrivateData) :
  linkEntity d = linkEntity active.1 → jointAxis d = jointAxis active.1 →
  unitVector (H := reference) active.2 d = mkVector3d (Fin 1) (Fin 0) (Fin 0).
Proof.
  intros Hl Ha. unfold unitVector. rewrite Hl, Ha.
  change (Reference.RotateVector Quaterniond_Identity
            (Reference.Normalize (mkVector3d (Fin 1) (Fin 0) (Fin 0)))
          = mkVector3d (Fin 1) (Fin 0) (Fin 0)).
  rewrite Normalize_x_axis. apply RotateVector_identity.
Qed.

Lemma active_denominator : (denominator 1000 0.004 0.2 = 0.0064)%R.
Proof. unfold denominator. lra. Qed.

(** The conversion for the submarine: no thrust gives no rotation, and
    100 N give 125 rad/s. *)
Lemma active_conversion_0 :
  ThrustToAngularVec active.1 (Fin 0) = Fin 0.
Proof.
  rewrite (ThrustToAngularVec_Fin _ 1000 0.004 0.2 0);
    try reflexivity; rewrite active_denominator; [|lra].
  replace (0 / 0.0064)%R with 0%R by lra. rewrite Rabs_R0, sqrt_0.
  destruct (Rlt_dec 0 0); f_equal; lra.
Qed.

Lemma active_conversion_100 :
  ThrustToAngularVec active.1 (Fin 100) = Fin 125.
Proof.
  rewrite (ThrustToAngularVec_Fin _ 1000 0.004 0.2 100);
    try reflexivity; rewrite active_denominator; [|lra].
  replace (100 / 0.0064)%R with (125 * 125)%R by lra.
  rewrite Rabs_pos_eq by lra. rewrite sqrt_square by lra.
  destruct (Rlt_dec 0 100); [f_equal; lra | lra].
Qed.

(** Scenario B: a command of 2000 N is stored as 1000 N; a NaN, as 0. *)
Lemma OnCmdThrust_2000 : thrust (OnCmdThrust active.1 (Fin 2000)) = Fin 1000.
Proof.
  cbn [OnCmdThrust set_thrust thrust].
  change (clamp (Fin 2000) (Fin (-1000)) (Fin 1000) = Fin 1000).
  unfold clamp, std_max, std_min. run_doubles. reflexivity.
Qed.

Lemma OnCmdThrust_NaN : thrust (OnCmdThrust active.1 NaN) = Fin 0.
Proof.
  cbn [OnCmdThrust set_thrust thrust].
  change (clamp (Fin 0) (Fin (-1000)) (Fin 1000) = Fin 0).
  unfold clamp, std_max, std_min. run_doubles. reflexivity.
Qed.

Lemma OnCmdThrust_100 : thrust (OnCmdThrust active.1 (Fin 100)) = Fin 100.
Proof.
  cbn [OnCmdThrust set_thrust thrust].
  change (clamp (Fin 100) (Fin (-1000)) (Fin 1000) = Fin 100).
  unfold clamp, std_max, std_min. run_doubles. reflexivity.
Qed.

(** The angular error of the submarine at rest: zero without a command,
    -125 rad/s with a command of 100 N. *)
Lemma active_error_0 :
  angularError (H := reference) active.2 active.1 Vector3d_Zero = Fin 0.
Proof.
  unfold angularError.
  rewrite active_unitVector by reflexivity.
  change (thrust active.1) with (Fin 0). rewrite active_conversion_0.
  unfold Dot, Vector3d_Zero. run_doubles. f_equal. lra.
Qed.

Lemma active_error_100 :
  angularError (H := reference) active.2 (OnCmdThrust active.1 (Fin 100))
    Vector3d_Zero = Fin (-125).
Proof.
  unfold angularError.
  rewrite active_unitVector by reflexivity.
  rewrite OnCmdThrust_100.
  rewrite (ThrustToAngularVec_ext active.1) by reflexivity.
  rewrite active_conversion_100.
  unfold Dot, Vector3d_Zero. run_doubles. f_equal. lra.
Qed.

Lemma active_subscribed : bool_decide (cmd_thrust ∈ node active.1) = true.
Proof. reflexivity. Qed.

Lemma PreUpdate_paused_witness :
  paused a_paused_step = true
  ∧ PreUpdate (H := reference) a_paused_step active.2
      (OnCmdThrust active.1 (Fin 100))
    = Some (OnCmdThrust active.1 (Fin 100), active.2).
Proof.
  split; [reflexivity|].
  apply (PreUpdate_paused (H := reference)). reflexivity.
Defined.

Lemma PreUpdate_dead_band_witness :
  paused a_step = false
  ∧ (dabs (angularError (H := reference) active.2 active.1 Vector3d_Zero)
       <=? Fin 0.1)%D = true
  ∧ PreUpdate (H := reference) a_step active.2 active.1
    = Some (set_jointAxis (Reference.Normalize (jointAxis active.1)) active.1,
            AddWorldWrench active.2 (linkEntity active.1)
              (vscale (unitVector (H := reference) active.2 active.1)
                 (thrust active.1))
              (vscale (unitVector (H := reference) active.2 active.1)
                 (Fin 0)))
  ∧ (dabs (angularError (H := reference) active.2
             (OnCmdThrust active.1 (Fin 100)) Vector3d_Zero)
       >? Fin 0.1)%D = true
  ∧ (∃ d' _ecm',
       PreUpdate (H := reference) a_step active.2
         (OnCmdThrust active.1 (Fin 100)) = Some (d', _ecm')
       ∧ rpmController d' =
           (Reference.Update (rpmController active.1) (Fin (-125))
              (dt a_step)).1).
Proof.
  assert (Hin : (dabs (angularError (H := reference) active.2 active.1
                         Vector3d_Zero) <=? Fin 0.1)%D = true).
  { rewrite active_error_0. run_doubles. reflexivity. }
  assert (Hout : (dabs (angularError (H := reference) active.2
                          (OnCmdThrust active.1 (Fin 100)) Vector3d_Zero)
                    >? Fin 0.1)%D = true).
  { rewrite active_error_100. run_doubles. reflexivity. }
  split; [reflexivity|]. split; [exact Hin|].
  destruct (PreUpdate_dead_band (H := reference) a_step active.2 active.1
              Vector3d_Zero eq_refl active_velocity) as (Hrest & _ & _).
  split; [exact (Hrest Hin)|]. split; [exact Hout|].
  destruct (PreUpdate_dead_band (H := reference) a_step active.2
              (OnCmdThrust active.1 (Fin 100)) Vector3d_Zero eq_refl
              active_velocity) as (_ & Hrun & _).
  eexists _, _. split; [exact (Hrun Hout)|].
  cbn [rpmController set_rpmController]. rewrite active_error_100.
  reflexivity.
Defined.

Lemma PreUpdate_adds_wrench_witness :
  ∃ d' _ecm',
    PreUpdate (H := reference) a_step active.2
      (OnCmdThrust active.1 (Fin 100)) = Some (d', _ecm')
    ∧ same_but_wrench _ecm' active.2
    ∧ thrust d' = Fin 100.
Proof.
  destruct (PreUpdate_adds_wrench (H := reference) a_step active.2
              (OnCmdThrust active.1 (Fin 100)) Vector3d_Zero
              eq_refl active_velocity)
    as (d' & _ecm' & Hstep & _ & _ & Hsame & Hthrust).
  exists d', _ecm'. split; [exact Hstep|]. split; [exact Hsame|].
  rewrite Hthrust. apply OnCmdThrust_100.
Defined.

Lemma some_events_run :
  ∃ s, run (H := reference) some_events (active.1, active.2) = Some s.
Proof.
  unfold some_events.
  rewrite (run_cons (H := reference) _ _ _ _
             (handle_Message (H := reference) _ _ _ _ active_subscribed)).
  rewrite (run_cons (H := reference) _ _ _ _
             (handle_Step (H := reference) _ _ _ _
                (PreUpdate_unpaused (H := reference) a_step active.2
                   (OnCmdThrust active.1 (Fin 2000)) Vector3d_Zero eq_refl
                   active_velocity))).
  rewrite (run_cons (H := reference) (World sub_ecm) [] _ _ eq_refl).
  eexists. reflexivity.
Qed.

Lemma command_bounds_are_constants_witness :
  ∃ d2 _ecm2,
    run (H := reference) some_events (active.1, active.2) = Some (d2, _ecm2)
    ∧ cmdMin d2 = Fin (-1000) ∧ cmdMax d2 = Fin 1000
    ∧ (thrust d2 <=? Fin 1000)%D = true
    ∧ PID.cmdMax (rpmController d2) = ThrustToAngularVec d2 (Fin 1000).
Proof.
  destruct some_events_run as [[d2 _ecm2] Hrun]. exists d2, _ecm2.
  destruct (command_bounds_are_constants (H := reference) 1%N sdf_gains
              sub_ecm some_events active.1 d2 active.2 _ecm2 Listening
              Reference_Update_keeps_limits active_Configure Hrun)
    as (Hmin & Hmax & _ & Hhi & Hpid).
  destruct (Hpid eq_refl) as [_ Hpmax].
  repeat split; assumption.
Defined.

(* ===================================================================== *)
(** ** More on the conversion from thrust to angular velocity *)
(* ===================================================================== *)

(** Two sets of finite parameters whose products have the same absolute
    value give the same conversion: the quotient goes through [abs]. *)
Lemma ThrustToAngularVec_abs_denominator (d1 d2 : ThrusterPrivateData)
    (rho1 c1 dia1 rho2 c2 dia2 : R) (t : double) :
  fluidDensity d1 = Fin rho1 → thrustCoefficient d1 = Fin c1 →
  propellerDiameter d1 = Fin dia1 →
  fluidDensity d2 = Fin rho2 → thrustCoefficient d2 = Fin c2 →
  propellerDiameter d2 = Fin dia2 →
  Rabs (denominator rho1 c1 dia1) = Rabs (denominator rho2 c2 dia2) →
  ThrustToAngularVec d1 t = ThrustToAngularVec d2 t.
Proof.
  intros Hr1 Hc1 Hd1 Hr2 Hc2 Hd2 Habs. unfold ThrustToAngularVec.
  rewrite Hr1, Hc1, Hd1, Hr2, Hc2, Hd2, !pow_Fin_4. cbn [dmul].
  fold (denominator rho1 c1 dia1) (denominator rho2 c2 dia2).
  set (k1 := denominator rho1 c1 dia1) in *.
  set (k2 := denominator rho2 c2 dia2) in *.
  destruct t as [|n|x]; [reflexivity | reflexivity |].
  cbn [ddiv].
  destruct (Req_dec_T k1 0) as [Hz1|Hnz1].
  - assert (Hz2 : k2 = 0%R).
    { rewrite Hz1, Rabs_R0 in Habs.
      destruct (Req_dec_T k2 0) as [|Hne]; [assumption|].
      apply Rabs_pos_lt in Hne. lra. }
    rewrite Hz1, Hz2. reflexivity.
  - assert (Hnz2 : k2 ≠ 0%R).
    { intros Hz2. rewrite Hz2, Rabs_R0 in Habs.
      apply Rabs_pos_lt in Hnz1. lra. }
    rewrite (Reqb_false k1 0), (Reqb_false k2 0) by assumption.
    cbn [dabs].
    assert (Hq : Rabs (x / k1) = Rabs (x / k2)).
    { unfold Rdiv. rewrite !Rabs_mult, !Rabs_inv, Habs. reflexivity. }
    rewrite Hq. reflexivity.
Qed.

(** X3: the conversion does not see the sign of a parameter: with finite
    parameters, negating the thrust coefficient, the fluid density or the
    propeller diameter leaves the angular velocity of every thrust
    unchanged (the sign of the result is the sign of the thrust alone). *)
Theorem ThrustToAngularVec_ignores_signs (d : ThrusterPrivateData)
    (rho c dia : R) (t : double) :
  fluidDensity d = Fin rho → thrustCoefficient d = Fin c →
  propellerDiameter d = Fin dia →
  ThrustToAngularVec (set_thrustCoefficient (Fin (- c)) d) t
    = ThrustToAngularVec d t
  ∧ ThrustToAngularVec (set_fluidDensity (Fin (- rho)) d) t
    = ThrustToAngularVec d t
  ∧ ThrustToAngularVec (set_propellerDiameter (Fin (- dia)) d) t
    = ThrustToAngularVec d t.
Proof.
  intros Hr Hc Hd. repeat split.
  - apply (ThrustToAngularVec_abs_denominator _ _ rho (- c) dia rho c dia);
      try assumption; try reflexivity.
    unfold denominator.
    replace (rho * - c * dia ^ 4)%R with (- (rho * c * dia ^ 4))%R by ring.
    apply Rabs_Ropp.
  - apply (ThrustToAngularVec_abs_denominator _ _ (- rho) c dia rho c dia);
      try assumption; try reflexivity.
    unfold denominator.
    replace (- rho * c * dia ^ 4)%R with (- (rho * c * dia ^ 4))%R by ring.
    apply Rabs_Ropp.
  - apply (ThrustToAngularVec_abs_denominator _ _ rho c (- dia) rho c dia);
      try assumption; try reflexivity.
    unfold denominator. f_equal. ring.
Qed.

Lemma ThrustToAngularVec_ignores_signs_witness :
  ThrustToAngularVec (set_thrustCoefficient (Fin (- (0.004))) active.1)
    (Fin 100) = Fin 125.
Proof.
  destruct (ThrustToAngularVec_ignores_signs active.1 1000 0.004 0.2
              (Fin 100) eq_refl eq_refl eq_refl) as (Hc & _ & _).
  rewrite Hc. apply active_conversion_100.
Defined.



(* ===================================================================== *)
(** ** More on command intake *)
(* ===================================================================== *)

(** X5: with finite bounds in order, [OnCmdThrust] stores a finite command
    inside the bounds as it is, a command above [cmdMax] as [cmdMax] and a
    command below [cmdMin] as [cmdMin]. *)
Theorem OnCmdThrust_saturates (d : ThrusterPrivateData) (lo hi x : R) :
  cmdMin d = Fin lo → cmdMax d = Fin hi → (lo <= hi)%R →
  ((lo <= x <= hi)%R → thrust (OnCmdThrust d (Fin x)) = Fin x)
  ∧ ((hi < x)%R → thrust (OnCmdThrust d (Fin x)) = Fin hi)
  ∧ ((x < lo)%R → thrust (OnCmdThrust d (Fin x)) = Fin lo).
Proof.
  intros Hlo Hhi Hle. cbn [OnCmdThrust set_thrust thrust].
  rewrite Hlo, Hhi. unfold clamp, std_max, std_min, fixnan. cbn.
  repeat split; intros Hx; real_tests; cbn; real_tests;
    try reflexivity; lra.
Qed.

Lemma OnCmdThrust_saturates_witness :
  thrust (OnCmdThrust Thruster_new (Fin 250)) = Fin 250
  ∧ thrust (OnCmdThrust Thruster_new (Fin 2000)) = Fin 1000
  ∧ thrust (OnCmdThrust Thruster_new (Fin (-1000.5))) = Fin (-1000).
Proof.
  assert (Hle : (-1000 <= 1000)%R) by lra.
  repeat split.
  - destruct (OnCmdThrust_saturates Thruster_new (-1000) 1000 250
                eq_refl eq_refl Hle) as (Hin & _ & _).
    apply Hin. lra.
  - destruct (OnCmdThrust_saturates Thruster_new (-1000) 1000 2000
                eq_refl eq_refl Hle) as (_ & Hup & _).
    apply Hup. lra.
  - destruct (OnCmdThrust_saturates Thruster_new (-1000) 1000 (-1000.5)
                eq_refl eq_refl Hle) as (_ & _ & Hdown).
    apply Hdown. lra.
Defined.

(* ===================================================================== *)
(** ** More on configuration *)
(* ===================================================================== *)

Section MoreConfiguration.

Context `{Externals}.

(** X6: an early return of [Configure] leaves the entity-component
    manager, the stored command, the subscriptions, the controller, the
    link and the joint axis as they were; but the parameters read before
    the failing test stay written: nothing after a missing [<joint_name>]
    or [<thrust_coefficient>], the thrust coefficient after a missing
    [<propeller_diameter>], and the three physical parameters when the
    joint is not found. *)
Theorem Configure_early_return (_entity : Entity)
    (_sdf : gmap string SdfValue) (_ecm _ecm' : EntityComponentManager)
    (d d' : ThrusterPrivateData) (log : ConfigureLog) :
  Configure _entity _sdf _ecm d = Some (d', _ecm', log) →
  phase log = Unconfigured →
  _ecm' = _ecm
  ∧ thrust d' = thrust d ∧ node d' = node d
  ∧ rpmController d' = rpmController d
  ∧ linkEntity d' = linkEntity d ∧ jointAxis d' = jointAxis d
  ∧ (log = MissingJointName ∨ log = MissingThrustCoefficient → d' = d)
  ∧ (log = MissingPropellerDiameter →
     d' = set_thrustCoefficient (Get_double _sdf "thrust_coefficient") d)
  ∧ (log = JointNotFound →
     thrustCoefficient d' = Get_double _sdf "thrust_coefficient"
     ∧ propellerDiameter d' = Get_double _sdf "propeller_diameter"
     ∧ fluidDensity d' =
         (if HasElement _sdf "fluid_density"
          then Get_double _sdf "fluid_density" else fluidDensity d)).
Proof.
  unfold Configure.
  destruct (HasElement _sdf "joint_name"); cbn [negb];
    [|intros [= <- <- <-] _; repeat split; intros; intuition congruence].
  destruct (HasElement _sdf "thrust_coefficient"); cbn [negb];
    [|intros [= <- <- <-] _; repeat split; intros; intuition congruence].
  destruct (HasElement _sdf "propeller_diameter"); cbn [negb];
    [|intros [= <- <- <-] _; repeat split; intros; intuition congruence].
  destruct (kNullEntity =? _)%N.
  - intros [= <- <- <-] _.
    destruct (HasElement _sdf "fluid_density");
      repeat split; intros; intuition congruence.
  - destruct (JointAxis _ecm !! _); [|discriminate].
    cbn [mbind option_bind].
    destruct (ChildLinkName _ecm !! _); [|discriminate].
    cbn [mbind option_bind]. intros [= <- <- <-]. discriminate.
Qed.

(** X7: [Configure] dereferences a null component pointer exactly when
    the three required elements are present, the joint is found, and the
    joint has no [JointAxis] component or no [ChildLinkName] component. *)
Theorem Configure_faults_iff (_entity : Entity)
    (_sdf : gmap string SdfValue) (_ecm : EntityComponentManager)
    (d : ThrusterPrivateData) :
  Configure _entity _sdf _ecm d = None ↔
    HasElement _sdf "joint_name" = true
    ∧ HasElement _sdf "thrust_coefficient" = true
    ∧ HasElement _sdf "propeller_diameter" = true
    ∧ JointByName _ecm _entity (Get_string _sdf "joint_name") ≠ kNullEntity
    ∧ (JointAxis _ecm
         !! JointByName _ecm _entity (Get_string _sdf "joint_name") = None
       ∨ ChildLinkName _ecm
           !! JointByName _ecm _entity (Get_string _sdf "joint_name") = None).
Proof.
  unfold Configure.
  destruct (HasElement _sdf "joint_name"); cbn [negb];
    [|split; [discriminate | intros (? & _); discriminate]].
  destruct (HasElement _sdf "thrust_coefficient"); cbn [negb];
    [|split; [discriminate | intros (_ & ? & _); discriminate]].
  destruct (HasElement _sdf "propeller_diameter"); cbn [negb];
    [|split; [discriminate | intros (_ & _ & ? & _); discriminate]].
  destruct (N.eqb_spec kNullEntity
              (JointByName _ecm _entity (Get_string _sdf "joint_name")))
    as [Heq|Hne].
  - split; [discriminate | intros (_ & _ & _ & Hj & _); congruence].
  - destruct (JointAxis _ecm !! _) as [axis|]; cbn [mbind option_bind].
    + destruct (ChildLinkName _ecm !! _) as [child|];
        cbn [mbind option_bind].
      * split; [discriminate|].
        intros (_ & _ & _ & _ & [?|?]); discriminate.
      * split; [intros _; repeat split; auto; congruence | reflexivity].
    + split; [intros _; repeat split; auto; congruence | reflexivity].
Qed.

(** X8: [Configure] does not check that the child link of the joint
    exists: when it ends Active, [linkEntity] is whatever
    [Model::LinkByName] returned for the [ChildLinkName] of the joint, and
    that is [kNullEntity] when the model has no link of that name. *)
Theorem Configure_link_unchecked (_entity : Entity)
    (_sdf : gmap string SdfValue) (_ecm _ecm' : EntityComponentManager)
    (d d' : ThrusterPrivateData) (log : ConfigureLog) :
  Configure _entity _sdf _ecm d = Some (d', _ecm', log) →
  phase log = Active →
  ∃ child,
    ChildLinkName _ecm
      !! JointByName _ecm _entity (Get_string _sdf "joint_name") = Some child
    ∧ linkEntity d' = LinkByName _ecm _entity child
    ∧ (LinksOfModel _ecm !! (_entity, child) = None →
       linkEntity d' = kNullEntity).
Proof.
  unfold Configure.
  destruct (HasElement _sdf "joint_name"); cbn [negb];
    [|intros [= <- <- <-]; discriminate].
  destruct (HasElement _sdf "thrust_coefficient"); cbn [negb];
    [|intros [= <- <- <-]; discriminate].
  destruct (HasElement _sdf "propeller_diameter"); cbn [negb];
    [|intros [= <- <- <-]; discriminate].
  destruct (kNullEntity =? _)%N; [intros [= <- <- <-]; discriminate|].
  destruct (JointAxis _ecm !! _); [|discriminate]. cbn [mbind option_bind].
  destruct (ChildLinkName _ecm !! _) as [child|]; [|discriminate].
  cbn [mbind option_bind]. intros [= <- <- <-] _.
  exists child. split; [reflexivity|].
  split; [destruct (HasElement _sdf "fluid_density"); reflexivity|].
  intros Hnone. unfold LinkByName. rewrite Hnone.
  destruct (HasElement _sdf "fluid_density"); reflexivity.
Qed.

(** X9: when [Configure] ends Active, the node is subscribed to the topics
    [/model/<ns>/joint/<joint_name>/cmd_thrust] and [.../cmd_pos] (made
    valid), on top of what it was subscribed to, where [<ns>] is the
    [<namespace>] element when there is one and the name of the model
    otherwise; a message on either topic reaches [OnCmdThrust]. *)
Theorem Configure_subscribes (_entity : Entity)
    (_sdf : gmap string SdfValue) (_ecm _ecm' : EntityComponentManager)
    (d d' : ThrusterPrivateData) (log : ConfigureLog) :
  Configure _entity _sdf _ecm d = Some (d', _ecm', log) →
  phase log = Active →
  let ns :=
    if HasElement _sdf "namespace" then Get_string _sdf "namespace"
    else Model_Name _ecm _entity in
  let topic suffix :=
    AsValidTopic ("/model/" +:+ ns +:+ "/joint/"
                  +:+ Get_string _sdf "joint_name" +:+ suffix) in
  node d' = topic "/cmd_thrust" :: topic "/cmd_pos" :: node d
  ∧ ∀ _msg e,
      handle (Message (topic "/cmd_thrust") _msg) (d', e)
        = Some (OnCmdThrust d' _msg, e)
      ∧ handle (Message (topic "/cmd_pos") _msg) (d', e)
        = Some (OnCmdThrust d' _msg, e).
Proof.
  intros Hc Hactive ns topic.
  assert (Hnode : node d' = topic "/cmd_thrust" :: topic "/cmd_pos" :: node d).
  { revert Hc Hactive. unfold Configure.
    destruct (HasElement _sdf "joint_name"); cbn [negb];
      [|intros [= <- <- <-]; discriminate].
    destruct (HasElement _sdf "thrust_coefficient"); cbn [negb];
      [|intros [= <- <- <-]; discriminate].
    destruct (HasElement _sdf "propeller_diameter"); cbn [negb];
      [|intros [= <- <- <-]; discriminate].
    destruct (kNullEntity =? _)%N; [intros [= <- <- <-]; discriminate|].
    destruct (JointAxis _ecm !! _); [|discriminate]. cbn [mbind option_bind].
    destruct (ChildLinkName _ecm !! _) as [child|]; [|discriminate].
    cbn [mbind option_bind]. intros [= <- <- <-] _.
    destruct (HasElement _sdf "fluid_density"); reflexivity. }
  split; [exact Hnode|]. intros _msg e.
  split; apply handle_Message, bool_decide_eq_true; rewrite Hnode.
  - apply list_elem_of_here.
  - apply list_elem_of_further, list_elem_of_here.
Qed.

(** X10: a component that [Configure] left Unconfigured ignores every
    command: it has no subscription, so whatever messages are published,
    on whatever topics, the component and the world stay as they are. *)
Theorem Unconfigured_ignores_messages (_entity : Entity)
    (_sdf : gmap string SdfValue) (_ecm _ecm1 : EntityComponentManager)
    (d1 : ThrusterPrivateData) (log : ConfigureLog) (evs : list Event) :
  Configure _entity _sdf _ecm Thruster_new = Some (d1, _ecm1, log) →
  phase log = Unconfigured →
  Forall (λ ev, ∃ topic _msg, ev = Message topic _msg) evs →
  run evs (d1, _ecm1) = Some (d1, _ecm1).
Proof.
  intros Hc Hphase Hmsgs.
  apply Configure_inv in Hc as (_ & _ & _ & Hfail & _).
  destruct Hfail as (Hnode & _).
  { intros ->. discriminate Hphase. }
  cbn in Hnode.
  induction Hmsgs as [|ev evs (topic & _msg & ->) _ IH]; [reflexivity|].
  rewrite (run_cons _ _ _ (d1, _ecm1)); [exact IH|].
  cbn [handle fst snd]. rewrite Hnode.
  rewrite bool_decide_eq_false_2 by apply not_elem_of_nil. reflexivity.
Qed.

End MoreConfiguration.

Lemma Configure_early_return_witness :
  ∃ d',
    Configure (H := reference) 1%N sdf_gains
      (mkECM ∅ ∅ ∅ ∅ ∅ ∅ ∅ ∅ ∅) Thruster_new
      = Some (d', mkECM ∅ ∅ ∅ ∅ ∅ ∅ ∅ ∅ ∅, JointNotFound)
    ∧ node d' = [] ∧ rpmController d' = PID.Default
    ∧ thrustCoefficient d' = Fin 0.004 ∧ propellerDiameter d' = Fin 0.2.
Proof.
  eexists.
  assert (Hc : Configure (H := reference) 1%N sdf_gains
                 (mkECM ∅ ∅ ∅ ∅ ∅ ∅ ∅ ∅ ∅) Thruster_new
               = Some (_, mkECM ∅ ∅ ∅ ∅ ∅ ∅ ∅ ∅ ∅, JointNotFound))
    by reflexivity.
  split; [exact Hc|].
  destruct (Configure_early_return (H := reference) _ _ _ _ _ _ _ Hc eq_refl)
    as (_ & _ & Hnode & Hpid & _ & _ & _ & _ & Hwritten).
  destruct (Hwritten eq_refl) as (Hcoef & Hdia & _).
  repeat split; assumption.
Defined.

Lemma Configure_link_unchecked_witness :
  ∃ d' _ecm',
    Configure (H := reference) 1%N sdf_gains
      (mkECM (Name sub_ecm) (JointsOfModel sub_ecm) ∅ (JointAxis sub_ecm)
         (ChildLinkName sub_ecm) ∅ ∅ ∅ ∅) Thruster_new
      = Some (d', _ecm', Listening)
    ∧ linkEntity d' = kNullEntity.
Proof.
  eexists _, _.
  assert (Hc : Configure (H := reference) 1%N sdf_gains
                 (mkECM (Name sub_ecm) (JointsOfModel sub_ecm) ∅
                    (JointAxis sub_ecm) (ChildLinkName sub_ecm) ∅ ∅ ∅ ∅)
                 Thruster_new
               = Some (_, _, Listening)) by reflexivity.
  split; [exact Hc|].
  destruct (Configure_link_unchecked (H := reference) _ _ _ _ _ _ _ Hc eq_refl)
    as (child & Hchild & _ & Hnull).
  apply Hnull. injection Hchild as <-. reflexivity.
Defined.

Lemma Configure_subscribes_witness :
  node active.1 = [cmd_thrust; "/model/sub/joint/propeller_joint/cmd_pos"]
  ∧ handle (H := reference)
      (Message "/model/sub/joint/propeller_joint/cmd_pos" (Fin 100))
      (active.1, active.2)
    = Some (OnCmdThrust active.1 (Fin 100), active.2).
Proof.
  destruct (Configure_subscribes (H := reference) 1%N sdf_gains sub_ecm
              active.2 Thruster_new active.1 Listening active_Configure
              eq_refl) as (Hnode & Hroute).
  split; [exact Hnode|].
  destruct (Hroute (Fin 100) active.2) as (_ & Hold). exact Hold.
Defined.

Lemma Unconfigured_ignores_messages_witness :
  run (H := reference)
    [Message cmd_thrust (Fin 500); Message "/cmd_pos" NaN]
    (Thruster_new, sub_ecm)
  = Some (Thruster_new, sub_ecm).
Proof.
  apply (Unconfigured_ignores_messages (H := reference) 1%N
           sdf_no_coefficient sub_ecm sub_ecm Thruster_new
           MissingThrustCoefficient);
    [reflexivity | reflexivity |].
  repeat constructor; eauto.
Defined.

(* ===================================================================== *)
(** ** More on the simulation step *)
(* ===================================================================== *)

Section MoreSteps.

Context `{Externals}.

(** X11: after a [Configure] that ends Active on a link that was found,
    [PreUpdate] never dereferences an empty optional on the world that
    [Configure] returns: [enableComponent] has given the link its world
    angular velocity, and the step returns whatever the pause flag is. *)
Theorem Configure_then_PreUpdate (_entity : Entity)
    (_sdf : gmap string SdfValue) (_ecm _ecm' : EntityComponentManager)
    (d d' : ThrusterPrivateData) (log : ConfigureLog) (_info : UpdateInfo) :
  Configure _entity _sdf _ecm d = Some (d', _ecm', log) →
  phase log = Active →
  linkEntity d' ≠ kNullEntity →
  ∃ d'' _ecm'', PreUpdate _info _ecm' d' = Some (d'', _ecm'').
Proof.
  intros Hc Hactive _.
  assert (log = Listening) as ->
    by (destruct log; try discriminate Hactive; reflexivity).
  apply Configure_inv in Hc as (_ & _ & _ & _ & Hc).
  destruct (Hc eq_refl) as (_ & _ & _ & _ & [w Hw]).
  destruct (paused _info) eqn:Hp.
  - unfold PreUpdate. rewrite Hp. eauto.
  - rewrite (PreUpdate_unpaused _ _ _ w Hp Hw). eauto.
Qed.

(** X12: [PreUpdate] never changes the stored command, the command bounds,
    the physical parameters, the subscriptions or the link: the last
    command stays in force step after step, until another message
    replaces it. *)
Theorem PreUpdate_keeps_command (_info : UpdateInfo)
    (_ecm _ecm' : EntityComponentManager) (d d' : ThrusterPrivateData) :
  PreUpdate _info _ecm d = Some (d', _ecm') →
  thrust d' = thrust d ∧ cmdMin d' = cmdMin d ∧ cmdMax d' = cmdMax d
  ∧ thrustCoefficient d' = thrustCoefficient d
  ∧ fluidDensity d' = fluidDensity d
  ∧ propellerDiameter d' = propellerDiameter d
  ∧ node d' = node d ∧ linkEntity d' = linkEntity d.
Proof.
  destruct (paused _info) eqn:Hp.
  - unfold PreUpdate. rewrite Hp. intros [= <- <-]. repeat split.
  - destruct (Link_WorldAngularVelocity _ecm (linkEntity d)) as [w|] eqn:Hw.
    + rewrite (PreUpdate_unpaused _ _ _ w Hp Hw). intros [= <- <-].
      repeat split.
    + rewrite PreUpdate_no_velocity by assumption. discriminate.
Qed.

End MoreSteps.

Lemma Configure_then_PreUpdate_witness :
  ∃ d'' _ecm'',
    PreUpdate (H := reference) a_step active.2 active.1
    = Some (d'', _ecm'').
Proof.
  apply (Configure_then_PreUpdate (H := reference) 1%N sdf_gains sub_ecm
           active.2 Thruster_new active.1 Listening a_step
           active_Configure eq_refl).
  discriminate.
Defined.

Lemma PreUpdate_keeps_command_witness :
  ∃ d' _ecm',
    PreUpdate (H := reference) a_step active.2
      (OnCmdThrust active.1 (Fin 100)) = Some (d', _ecm')
    ∧ thrust d' = Fin 100 ∧ node d' = node active.1.
Proof.
  eexists _, _.
  pose proof (PreUpdate_unpaused (H := reference) a_step active.2
                (OnCmdThrust active.1 (Fin 100)) Vector3d_Zero eq_refl
                active_velocity) as Hstep.
  split; [exact Hstep|].
  destruct (PreUpdate_keeps_command (H := reference) _ _ _ _ _ Hstep)
    as (Hthrust & _ & _ & _ & _ & _ & Hnode & _).
  split; [rewrite Hthrust; apply OnCmdThrust_100 | exact Hnode].
Defined.

Section DegenerateCases.

Context `{Externals}.


(** X15: a NaN never reaches the controller.  When the angular error of a
    step that is not paused is a NaN (a NaN velocity, or the conversion of
    a zero command with a zero parameter), the test [abs(error) > 0.1] is
    false: the torque is the axis scaled by 0 and the controller is the one
    of before the step. *)
Theorem PreUpdate_NaN_error (_info : UpdateInfo)
    (_ecm : EntityComponentManager) (d : ThrusterPrivateData)
    (w : Vector3d) :
  paused _info = false →
  Link_WorldAngularVelocity _ecm (linkEntity d) = Some w →
  angularError _ecm d w = NaN →
  PreUpdate _info _ecm d =
    Some (set_jointAxis (Normalize (jointAxis d)) d,
          AddWorldWrench _ecm (linkEntity d)
            (vscale (unitVector _ecm d) (thrust d))
            (vscale (unitVector _ecm d) (Fin 0))).
Proof.
  intros Hp Hw He. rewrite (PreUpdate_unpaused _ _ _ w Hp Hw).
  unfold dead_band. rewrite He. cbn [dabs dgt dlt fst snd].
  destruct d; reflexivity.
Qed.

End DegenerateCases.


Lemma PreUpdate_NaN_error_witness :
  ∃ d' _ecm',
    PreUpdate (H := reference) a_step
      (set_velocities active.2 (AngularVelocity active.2)
         {[ 6%N := mkVector3d NaN (Fin 0) (Fin 0) ]})
      active.1 = Some (d', _ecm')
    ∧ rpmController d' = rpmController active.1.
Proof.
  eexists _, _.
  assert (He : angularError (H := reference)
                 (set_velocities active.2 (AngularVelocity active.2)
                    {[ 6%N := mkVector3d NaN (Fin 0) (Fin 0) ]})
                 active.1 (mkVector3d NaN (Fin 0) (Fin 0)) = NaN).
  { unfold angularError.
    change (unitVector (H := reference)
              (set_velocities active.2 (AngularVelocity active.2)
                 {[ 6%N := mkVector3d NaN (Fin 0) (Fin 0) ]}) active.1)
      with (unitVector (H := reference) active.2 active.1).
    rewrite active_unitVector by reflexivity. reflexivity. }
  assert (Hw : Link_WorldAngularVelocity
                 (set_velocities active.2 (AngularVelocity active.2)
                    {[ 6%N := mkVector3d NaN (Fin 0) (Fin 0) ]})
                 (linkEntity active.1)
               = Some (mkVector3d NaN (Fin 0) (Fin 0))) by reflexivity.
  split.
  - apply (PreUpdate_NaN_error (H := reference) a_step
             (set_velocities active.2 (AngularVelocity active.2)
                {[ 6%N := mkVector3d NaN (Fin 0) (Fin 0) ]})
             active.1 (mkVector3d NaN (Fin 0) (Fin 0)) eq_refl Hw He).
  - reflexivity.
Defined.
